(** * Webull reporting scripts: a shallow embedding and its properties

    The scripts of this repository load credentials, call the brokerage
    API through the vendor SDK, normalise the JSON answer and print a
    report.  This file embeds the pure parts of that pipeline (amount
    formatting, response normalisation, field reconciliation, the
    held-positions filters, credential loading, the loggers) and the
    control flow of the [main] routines, and proves what the
    specification says about them.

    Text is modelled as Rocq [string]s, read as the UTF-8 bytes of the
    Python [str]; only ASCII white space is recognised as white space.
    A Python [float] is an IEEE binary64 number, an element of
    [spec_float] with precision 53 and maximal exponent 1024.  A
    [decimal.Decimal] is a sign, an integer coefficient and an exponent,
    with the limits of CPython's C implementation on a 64-bit platform
    and the default context (28 digits, half-even rounding, traps on
    InvalidOperation, DivisionByZero and Overflow). *)

From Stdlib Require Import ZArith Lia String Ascii List.
From Stdlib Require Import Numbers.DecimalString Numbers.DecimalPos.
From Stdlib Require Import Floats.SpecFloat.
From stdpp Require Import base option list gmap strings.

Local Open Scope string_scope.
Local Open Scope Z_scope.

(** ** Exceptions and fallible computations *)

Inductive exn :=
| AttributeError
| TypeError
| ValueError
| OverflowError
| InvalidOperation
| DecimalOverflow
| KeyError
| OSError.

Inductive result (A : Type) :=
| Ok (a : A)
| Raise (e : exn).
Arguments Ok {A} a.
Arguments Raise {A} e.

#[global] Instance result_ret : MRet result := fun A a => Ok a.
#[global] Instance result_bind : MBind result := fun A B f m =>
  match m with
  | Ok a => f a
  | Raise e => Raise e
  end.

(** What [print] sends to the console: a line of text, or a text
    followed by [str(e)] for a caught exception [e], whose wording is
    the interpreter's and is kept symbolic. *)
Inductive console_line :=
| Line (text : string)
| ErrorLine (text : string) (e : exn).

(** [try: ... except (ValueError, TypeError): ...] *)
Definition is_value_or_type_error (e : exn) : bool :=
  match e with
  | ValueError | TypeError => true
  | _ => false
  end.

(** ** Python string operations *)

Module pystr.

Definition NL : string := String (ascii_of_nat 10) EmptyString.
Definition dquote : ascii := ascii_of_nat 34.
Definition squote : ascii := ascii_of_nat 39.

(** White space removed by [str.strip()]: TAB, LF, VT, FF, CR, the four
    separators FS, GS, RS, US, and the space. *)
Definition is_space (c : ascii) : bool :=
  let n := nat_of_ascii c in
  ((9 <=? n)%nat && (n <=? 13)%nat) || ((28 <=? n)%nat && (n <=? 31)%nat) || (n =? 32)%nat.

(** White space removed by [float()] before it parses: the C locale's
    [isspace], which has no FS, GS, RS, US. *)
Definition is_c_space (c : ascii) : bool :=
  let n := nat_of_ascii c in
  ((9 <=? n)%nat && (n <=? 13)%nat) || (n =? 32)%nat.

Fixpoint rev_onto (s acc : string) : string :=
  match s with
  | EmptyString => acc
  | String c t => rev_onto t (String c acc)
  end.

Definition rev (s : string) : string := rev_onto s EmptyString.

Fixpoint lstrip_by (sp : ascii -> bool) (s : string) : string :=
  match s with
  | EmptyString => EmptyString
  | String c t => if sp c then lstrip_by sp t else s
  end.

Definition strip_by (sp : ascii -> bool) (s : string) : string :=
  rev (lstrip_by sp (rev (lstrip_by sp s))).

(** [s.strip()] *)
Definition strip (s : string) : string := strip_by is_space s.

(** [s.startswith(p)] *)
Definition startswith (s p : string) : bool := String.prefix p s.

(** [s.endswith(p)] *)
Definition endswith (s p : string) : bool := String.prefix (rev p) (rev s).

(** [needle in hay] *)
Fixpoint contains (needle hay : string) : bool :=
  String.prefix needle hay ||
  match hay with
  | EmptyString => false
  | String _ t => contains needle t
  end.

(** [c in s] for a one-character needle *)
Fixpoint has_char (c : ascii) (s : string) : bool :=
  match s with
  | EmptyString => false
  | String d t => Ascii.eqb c d || has_char c t
  end.

(** [s.split(sep, 1)] for a one-character [sep] that occurs in [s]:
    the text before the first [sep] and the text after it.  [None]
    when [sep] does not occur (the split then has one element). *)
Fixpoint split_once (sep : ascii) (s : string) : option (string * string) :=
  match s with
  | EmptyString => None
  | String c t =>
      if Ascii.eqb c sep then Some (EmptyString, t)
      else match split_once sep t with
           | Some (a, b) => Some (String c a, b)
           | None => None
           end
  end.

(** What follows the prefix [p] in [s], when [s] starts with [p]. *)
Fixpoint strip_prefix (p s : string) : option string :=
  match p with
  | EmptyString => Some s
  | String a p' =>
      match s with
      | String b s' => if Ascii.eqb a b then strip_prefix p' s' else None
      | EmptyString => None
      end
  end.

Definition drop_first (s : string) : string :=
  match s with
  | EmptyString => EmptyString
  | String _ t => t
  end.

Fixpoint drop_last (s : string) : string :=
  match s with
  | EmptyString => EmptyString
  | String c EmptyString => EmptyString
  | String c t => String c (drop_last t)
  end.

(** [s[1:-1]] *)
Definition slice_1_m1 (s : string) : string := drop_last (drop_first s).

Definition nonempty (s : string) : bool :=
  match s with
  | EmptyString => false
  | String _ _ => true
  end.

(** [sep.join(parts)] *)
Fixpoint join (sep : string) (parts : list string) : string :=
  match parts with
  | [] => EmptyString
  | [p] => p
  | p :: rest => p +:+ sep +:+ join sep rest
  end.

Definition lower (c : ascii) : ascii :=
  let n := nat_of_ascii c in
  if ((65 <=? n)%nat && (n <=? 90)%nat)%bool then ascii_of_nat (n + 32) else c.

Fixpoint lowercase (s : string) : string :=
  match s with
  | EmptyString => EmptyString
  | String c t => String (lower c) (lowercase t)
  end.

Fixpoint remove_char (c : ascii) (s : string) : string :=
  match s with
  | EmptyString => EmptyString
  | String d t => if Ascii.eqb c d then remove_char c t else String d (remove_char c t)
  end.

End pystr.

(** ** Decoded JSON values

    What [response.json()] returns: [None], [bool], [int], [float],
    [str], [list] and [dict] with string keys. *)

Inductive json :=
| JNull
| JBool (b : bool)
| JInt (n : Z)
| JFloat (x : spec_float)
| JStr (s : string)
| JArr (items : list json)
| JObj (fields : gmap string json).

(** [d.get(key, default)]; an object that is no [dict] has no [get]. *)
Definition dict_get (d : json) (key : string) (dflt : json) : result json :=
  match d with
  | JObj m => Ok (match m !! key with Some v => v | None => dflt end)
  | _ => Raise AttributeError
  end.

(** ** Python numbers: [int], [float] and their formatting *)

Module pynum.

Definition is_digit (c : ascii) : bool :=
  let n := nat_of_ascii c in ((48 <=? n)%nat && (n <=? 57)%nat)%bool.

Definition digit_val (c : ascii) : Z := Z.of_nat (nat_of_ascii c) - 48.

Definition digit_char (d : Z) : ascii := ascii_of_nat (48 + Z.to_nat d).

(** [str(n)] for a non-negative [int]: its decimal digits. *)
Definition str_nat (n : Z) : string := NilZero.string_of_uint (N.to_uint (Z.to_N n)).

(** [str(n)] for an [int]. *)
Definition str_int (n : Z) : string :=
  if n <? 0 then String "-" (str_nat (- n)) else str_nat n.

(** [len(str(n))] for a non-negative [int]. *)
Definition ndigits (n : Z) : Z := Z.of_nat (String.length (str_nat n)).

(** The [,] option of the format mini-language on a run of digits: a
    comma before every group of three digits counted from the right. *)
Fixpoint commas (digits : string) : string :=
  match digits with
  | EmptyString => EmptyString
  | String c t =>
      if pystr.nonempty t && (Nat.eqb (String.length t mod 3) 0)
      then String c (String "," (commas t))
      else String c (commas t)
  end.

(** [f"{n:,}"] for an [int]. *)
Definition format_comma_int (n : Z) : string :=
  if n <? 0 then String "-" (commas (str_nat (- n))) else commas (str_nat n).

(** The binary64 format. *)
Definition prec : Z := 53.
Definition emax : Z := 1024.

Definition is_binary64 (x : spec_float) : bool := valid_binary prec emax x.

Definition is_finite (x : spec_float) : bool :=
  match x with
  | S754_zero _ | S754_finite _ _ _ => true
  | _ => false
  end.

(** The float literal [0.01]: the binary64 number nearest to 1/100,
    which is 5764607523034235 * 2^-59. *)
Definition float_hundredth : spec_float := S754_finite false 5764607523034235 (-59).

(** [x < y] on floats, false when either is a NaN. *)
Definition float_lt (x y : spec_float) : bool := SFltb x y.

(** [float(n)] for an [int]: the nearest binary64 number, ties to even;
    OverflowError when it is out of range. *)
Definition float_of_int (n : Z) : result spec_float :=
  match binary_normalize prec emax n 0 false with
  | S754_infinity _ => Raise OverflowError
  | x => Ok x
  end.

(** [int(x)] for a float: truncation towards zero. *)
Definition int_of_float (x : spec_float) : result Z :=
  match x with
  | S754_zero _ => Ok 0
  | S754_finite s m e =>
      Ok (cond_Zopp s (if 0 <=? e then Zpos m * 2 ^ e else Zpos m / 2 ^ (- e)))
  | S754_infinity _ => Raise OverflowError
  | S754_nan => Raise ValueError
  end.

(** [str(x)] for a float that is not finite. *)
Definition str_nonfinite (x : spec_float) : string :=
  match x with
  | S754_infinity true => "-inf"
  | S754_infinity false => "inf"
  | _ => "nan"
  end.

(** [n < y] for an [int] n and a positive finite float y: Python
    compares the two exactly. *)
Definition int_lt_float (n : Z) (y : spec_float) : bool :=
  match y with
  | S754_finite false m e =>
      if 0 <=? e then n <? Zpos m * 2 ^ e else n * 2 ^ (- e) <? Zpos m
  | _ => false
  end.

(** [a / b] rounded to the nearest integer, ties to the even one
    ([0 <= a], [0 < b]). *)
Definition div_half_even (a b : Z) : Z :=
  let q := a / b in
  match 2 * (a mod b) ?= b with
  | Lt => q
  | Gt => q + 1
  | Eq => if Z.even q then q else q + 1
  end.

(** [m * 2^e * 100] rounded to the nearest integer, ties to even: the
    digits the [.2f] presentation type shows for [m * 2^e]. *)
Definition hundredths (m : positive) (e : Z) : Z :=
  if 0 <=? e then 100 * Zpos m * 2 ^ e
  else div_half_even (100 * Zpos m) (2 ^ (- e)).

Definition two_digits (n : Z) : string :=
  String (digit_char (n / 10)) (String (digit_char (n mod 10)) EmptyString).

(** A sign, the integer part with commas, a point and two digits. *)
Definition fixed2 (neg : bool) (h : Z) : string :=
  (if neg then "-" else "") +:+ commas (str_nat (h / 100)) +:+ "." +:+ two_digits (h mod 100).

(** [f"{x:,.2f}"] for a float. *)
Definition format_comma_2f (x : spec_float) : string :=
  match x with
  | S754_nan => "nan"
  | S754_infinity s => if s then "-inf" else "inf"
  | S754_zero s => fixed2 s 0
  | S754_finite s m e => fixed2 s (hundredths m e)
  end.

(** *** Reading a decimal numeral

    The syntax [float] and [Decimal] share once white space and
    underscores are dealt with: digits with at most one point and at
    least one digit, then an optional exponent. *)

Fixpoint take_digits (s : string) (acc : Z) (n : Z) : Z * Z * string :=
  match s with
  | EmptyString => (acc, n, EmptyString)
  | String c t =>
      if is_digit c then take_digits t (10 * acc + digit_val c) (n + 1)
      else (acc, n, s)
  end.

Definition parse_sign (s : string) : bool * string :=
  match s with
  | String c t =>
      if Ascii.eqb c "-" then (true, t)
      else if Ascii.eqb c "+" then (false, t)
      else (false, s)
  | EmptyString => (false, s)
  end.

Definition is_exp_mark (c : ascii) : bool := Ascii.eqb c "e" || Ascii.eqb c "E".

(** After the integer digits [ip]: a point and the fraction digits,
    which extend the coefficient and are counted. *)
Definition parse_fraction (ip : Z) (s : string) : Z * Z * string :=
  match s with
  | String ch t => if Ascii.eqb ch "." then take_digits t ip 0 else (ip, 0, s)
  | EmptyString => (ip, 0, s)
  end.

(** The end of a numeral: nothing, or an exponent mark, a sign and at
    least one digit. *)
Definition parse_exponent (s : string) : option Z :=
  match s with
  | EmptyString => Some 0
  | String ch t =>
      if is_exp_mark ch then
        let '(eneg, t') := parse_sign t in
        let '(ev, n3, r3) := take_digits t' 0 0 in
        if (n3 =? 0) || pystr.nonempty r3 then None
        else Some (if eneg then - ev else ev)
      else None
  end.

(** The coefficient and the exponent of an unsigned numeral: its value
    is [coefficient * 10^exponent]. *)
Definition parse_unsigned (s : string) : option (Z * Z) :=
  let '(ip, n1, r1) := take_digits s 0 0 in
  let '(c, n2, r2) := parse_fraction ip r1 in
  if n1 + n2 =? 0 then None
  else match parse_exponent r2 with
       | Some ex => Some (c, ex - n2)
       | None => None
       end.

(** The binary64 number nearest to [(-1)^neg * c * 10^e], ties to even,
    an infinity when it is out of range. *)
Definition binary64_of_decimal (neg : bool) (c e : Z) : spec_float :=
  if c <=? 0 then S754_zero neg
  else if 0 <=? e then binary_normalize prec emax (cond_Zopp neg (c * 10 ^ e)) 0 false
  else SFdiv prec emax (S754_finite neg (Z.to_pos c) 0)
                       (S754_finite false (Z.to_pos (10 ^ (- e))) 0).

(** Underscores in the argument of [float]: one may stand between two
    digits, nowhere else; they are then dropped. *)
Fixpoint drop_underscores (prev : ascii) (s : string) : option string :=
  match s with
  | EmptyString => if Ascii.eqb prev "_" then None else Some EmptyString
  | String c t =>
      if Ascii.eqb c "_" then
        if is_digit prev then drop_underscores c t else None
      else if Ascii.eqb prev "_" && negb (is_digit c) then None
      else option_map (String c) (drop_underscores c t)
  end.

(** [float(s)] for a [str]. *)
Definition float_of_string (s : string) : result spec_float :=
  let t := pystr.strip_by pystr.is_c_space s in
  match (if pystr.has_char "_" t then drop_underscores "000" t else Some t) with
  | None => Raise ValueError
  | Some u =>
      let '(neg, r) := parse_sign u in
      let w := pystr.lowercase r in
      if String.eqb w "inf" || String.eqb w "infinity" then Ok (S754_infinity neg)
      else if String.eqb w "nan" then Ok S754_nan
      else match parse_unsigned r with
           | Some (c, e) => Ok (binary64_of_decimal neg c e)
           | None => Raise ValueError
           end
  end.

End pynum.

(** ** [decimal.Decimal] *)

Module pydecimal.
Import pynum.

Inductive decimal :=
| DFinite (neg : bool) (coeff : Z) (exp : Z)
| DInfinity (neg : bool)
| DNaN.

(** The limits of the exact constructor (decimal.MAX_EMAX and
    decimal.MIN_ETINY on a 64-bit build). *)
Definition MAX_EMAX : Z := 999999999999999999.
Definition MIN_ETINY : Z := -1999999999999999997.

(** The default context. *)
Definition ctx_prec : Z := 28.
Definition ctx_Emax : Z := 999999.
Definition ctx_Emin : Z := -999999.
Definition Etiny : Z := ctx_Emin - ctx_prec + 1.
Definition Etop : Z := ctx_Emax - ctx_prec + 1.

(** What the constructor can hold without rounding or clamping; it
    raises InvalidOperation on the rest. *)
Definition representable (c e : Z) : bool :=
  if c =? 0 then (MIN_ETINY <=? e) && (e <=? MAX_EMAX)
  else (MIN_ETINY <=? e) && (e + ndigits c - 1 <=? MAX_EMAX).

Fixpoint all_digits (s : string) : bool :=
  match s with
  | EmptyString => true
  | String c t => is_digit c && all_digits t
  end.

(** [nan] or [snan], then the digits of a payload. *)
Definition is_nan_text (w : string) : bool :=
  match pystr.strip_prefix "nan" w with
  | Some payload => all_digits payload
  | None =>
      match pystr.strip_prefix "snan" w with
      | Some payload => all_digits payload
      | None => false
      end
  end.

(** [Decimal(s)] for a [str]: white space around it and every
    underscore are dropped first. *)
Definition Decimal_of_string (s : string) : result decimal :=
  let t := pystr.remove_char "_" (pystr.strip s) in
  let '(neg, r) := parse_sign t in
  let w := pystr.lowercase r in
  if String.eqb w "inf" || String.eqb w "infinity" then Ok (DInfinity neg)
  else if is_nan_text w then Ok DNaN
  else match parse_unsigned r with
       | Some (c, e) =>
           if representable c e then Ok (DFinite neg c e) else Raise InvalidOperation
       | None => Raise InvalidOperation
       end.

(** [Decimal(x)] for a float: its exact value. *)
Definition Decimal_of_float (x : spec_float) : decimal :=
  match x with
  | S754_zero s => DFinite s 0 0
  | S754_infinity s => DInfinity s
  | S754_nan => DNaN
  | S754_finite s m e =>
      if 0 <=? e then DFinite s (Zpos m * 2 ^ e) 0
      else DFinite s (Zpos m * 5 ^ (- e)) e
  end.

(** Rounding a non-negative finite number to the context, as every
    arithmetic operation and [abs] do: at most [ctx_prec] digits, ties
    to even, the exponent kept within the context's range; Overflow is
    trapped. *)
Definition fix_context (c e : Z) : result (Z * Z) :=
  if c =? 0 then Ok (0, Z.min (Z.max e Etiny) ctx_Emax)
  else
    let exp_min0 := ndigits c + e - ctx_prec in
    if Etop <? exp_min0 then Raise DecimalOverflow
    else
      let exp_min := Z.max exp_min0 Etiny in
      if e <? exp_min then
        let c1 := div_half_even c (10 ^ (exp_min - e)) in
        if 10 ^ ctx_prec <=? c1 then
          if Etop <? exp_min + 1 then Raise DecimalOverflow
          else Ok (c1 / 10, exp_min + 1)
        else Ok (c1, exp_min)
      else Ok (c, e).

(** [c * 10^e < Decimal('0.01')] for [0 <= c]: comparisons are exact. *)
Definition lt_hundredth (c e : Z) : bool :=
  if -2 <=? e then c * 10 ^ (e + 2) <? 1 else c <? 10 ^ (-2 - e).

(** [abs(d) < Decimal('0.01')]: a NaN makes the comparison signal
    InvalidOperation, which is trapped. *)
Definition abs_lt_hundredth (d : decimal) : result bool :=
  match d with
  | DNaN => Raise InvalidOperation
  | DInfinity _ => Ok false
  | DFinite _ c e =>
      match fix_context c e with
      | Ok (c', e') => Ok (lt_hundredth c' e')
      | Raise x => Raise x
      end
  end.

(** [d > 0] *)
Definition gt_zero (d : decimal) : result bool :=
  match d with
  | DNaN => Raise InvalidOperation
  | DInfinity neg => Ok (negb neg)
  | DFinite neg c _ => Ok (negb neg && (0 <? c))
  end.

End pydecimal.

(** ** Built-ins on decoded JSON values *)

Module pyjson.
Import pynum pydecimal.

(** [bool(v)] *)
Definition truthy (v : json) : bool :=
  match v with
  | JNull => false
  | JBool b => b
  | JInt n => negb (n =? 0)
  | JFloat (S754_zero _) => false
  | JFloat _ => true
  | JStr s => pystr.nonempty s
  | JArr l => match l with [] => false | _ :: _ => true end
  | JObj m => negb (bool_decide (m = ∅))
  end.

Fixpoint characters (s : string) : list json :=
  match s with
  | EmptyString => []
  | String c t => JStr (String c EmptyString) :: characters t
  end.

(** What [for x in v] runs through: the items of a list, the keys of
    a dict, the characters of a str; the rest is not iterable. *)
Definition iterate (v : json) : result (list json) :=
  match v with
  | JArr l => Ok l
  | JObj m => Ok (JStr <$> (map_to_list m).*1)
  | JStr s => Ok (characters s)
  | _ => Raise TypeError
  end.

Definition float_one : spec_float := S754_finite false 4503599627370496 (-52).

(** [float(v)] *)
Definition float_of_json (v : json) : result spec_float :=
  match v with
  | JFloat x => Ok x
  | JInt n => float_of_int n
  | JBool b => Ok (if b then float_one else S754_zero false)
  | JStr s => float_of_string s
  | JNull | JArr _ | JObj _ => Raise TypeError
  end.

(** An [int] or a [bool], as a sign, a digit or an exponent may be. *)
Definition as_int (v : json) : option Z :=
  match v with
  | JInt n => Some n
  | JBool b => Some (if b then 1 else 0)
  | _ => None
  end.

Fixpoint digits_value (ds : list json) (acc : Z) : option Z :=
  match ds with
  | [] => Some acc
  | d :: t =>
      match as_int d with
      | Some n => if (0 <=? n) && (n <=? 9) then digits_value t (10 * acc + n) else None
      | None => None
      end
  end.

(** [Decimal([sign, digits, exponent])]: the exponent is an [int] that
    fits a C [ssize_t], or one of 'F', 'n', 'N'. *)
Definition Decimal_of_sequence (l : list json) : result decimal :=
  match l with
  | [sg; ds; ex] =>
      match as_int sg with
      | Some s =>
          if (s =? 0) || (s =? 1) then
            let coefficient :=
              match ds with
              | JArr items => digits_value items 0
              | _ => None
              end in
            match ex with
            | JStr t =>
                if String.eqb t "F" then
                  match coefficient with
                  | Some _ => Ok (DInfinity (s =? 1))
                  | None => Raise ValueError
                  end
                else if String.eqb t "n" || String.eqb t "N" then
                  match coefficient with
                  | Some _ => Ok DNaN
                  | None => Raise ValueError
                  end
                else Raise ValueError
            | _ =>
                match as_int ex with
                | Some e =>
                    if (e <? - 2 ^ 63) || (2 ^ 63 <=? e) then Raise OverflowError
                    else match coefficient with
                         | Some c =>
                             if representable c e then Ok (DFinite (s =? 1) c e)
                             else Raise InvalidOperation
                         | None => Raise ValueError
                         end
                | None => Raise ValueError
                end
            end
          else Raise ValueError
      | None => Raise ValueError
      end
  | _ => Raise ValueError
  end.

(** [Decimal(v)] *)
Definition Decimal (v : json) : result decimal :=
  match v with
  | JStr s => Decimal_of_string s
  | JInt n => Ok (DFinite (n <? 0) (Z.abs n) 0)
  | JBool b => Ok (DFinite false (if b then 1 else 0) 0)
  | JFloat x => Ok (Decimal_of_float x)
  | JArr l => Decimal_of_sequence l
  | JNull | JObj _ => Raise TypeError
  end.

End pyjson.

(** ** The console, the report file and [sys.stdout] *)

Module pyio.

(** What [sys.stdout] is bound to: the terminal the process started
    with, or the script's [MarkdownLogger]. *)
Inductive stream :=
| Terminal
| Logger.

Record world := {
  sys_stdout : stream;
  logger_terminal : stream;      (* the logger's [self.terminal] *)
  log_open : bool;               (* the logger's file handle is open *)
  terminal_out : list string;    (* what was written to the terminal *)
  log_out : list string;         (* what was written to the file *)
  terminal_budget : option nat;  (* [Some n]: the terminal takes [n] more
                                    writes, the next one raises OSError *)
  disk_writable : bool           (* [open(filename, 'w')] succeeds *)
}.

(** A statement: it ends normally or raises, and leaves a world. *)
Definition M (A : Type) : Type := world -> result A * world.

#[global] Instance M_ret : MRet M := fun A a w => (Ok a, w).
#[global] Instance M_bind : MBind M := fun A B f m w =>
  match m w with
  | (Ok a, w') => f a w'
  | (Raise e, w') => (Raise e, w')
  end.

Definition raise {A} (e : exn) : M A := fun w => (Raise e, w).

(** [try: body finally: handler] *)
Definition try_finally {A} (body : M A) (handler : M unit) : M A := fun w =>
  let '(r, w1) := body w in
  match handler w1 with
  | (Ok _, w2) => (r, w2)
  | (Raise e, w2) => (Raise e, w2)
  end.

(** [self.terminal.write(message)] *)
Definition terminal_write (message : string) : M unit := fun w =>
  match terminal_budget w with
  | Some O => (Raise OSError, w)
  | budget =>
      (Ok tt,
       {| sys_stdout := sys_stdout w;
          logger_terminal := logger_terminal w;
          log_open := log_open w;
          terminal_out := (terminal_out w ++ [message])%list;
          log_out := log_out w;
          terminal_budget := Nat.pred <$> budget;
          disk_writable := disk_writable w |})
  end.

(** [self.log_file.write(message)]: a closed file refuses with
    ValueError. *)
Definition log_write (message : string) : M unit := fun w =>
  if log_open w then
    (Ok tt,
     {| sys_stdout := sys_stdout w;
        logger_terminal := logger_terminal w;
        log_open := true;
        terminal_out := terminal_out w;
        log_out := (log_out w ++ [message])%list;
        terminal_budget := terminal_budget w;
        disk_writable := disk_writable w |})
  else (Raise ValueError, w).

(** [MarkdownLogger.write(message)] *)
Definition logger_write (message : string) : M unit :=
  terminal_write message ;; log_write message.

(** [sys.stdout.write(message)] *)
Definition stdout_write (message : string) : M unit := fun w =>
  match sys_stdout w with
  | Terminal => terminal_write message w
  | Logger => logger_write message w
  end.

(** [print(message)]: the message, then the line end. *)
Definition print (message : string) : M unit :=
  stdout_write message ;; stdout_write pystr.NL.

(** [print()]: the line end alone. *)
Definition print_blank : M unit := stdout_write pystr.NL.

(** [sys.stdout = s] *)
Definition set_stdout (s : stream) : M unit := fun w =>
  (Ok tt,
   {| sys_stdout := s;
      logger_terminal := logger_terminal w;
      log_open := log_open w;
      terminal_out := terminal_out w;
      log_out := log_out w;
      terminal_budget := terminal_budget w;
      disk_writable := disk_writable w |}).

(** [self.terminal = sys.stdout; self.log_file = open(filename, 'w')] *)
Definition open_logger : M unit := fun w =>
  if disk_writable w then
    (Ok tt,
     {| sys_stdout := sys_stdout w;
        logger_terminal := sys_stdout w;
        log_open := true;
        terminal_out := terminal_out w;
        log_out := [];
        terminal_budget := terminal_budget w;
        disk_writable := true |})
  else (Raise OSError, w).

(** [self.log_file.close()] *)
Definition close_log : M unit := fun w =>
  (Ok tt,
   {| sys_stdout := sys_stdout w;
      logger_terminal := logger_terminal w;
      log_open := false;
      terminal_out := terminal_out w;
      log_out := log_out w;
      terminal_budget := terminal_budget w;
      disk_writable := disk_writable w |}).

(** [sys.stdout = logger.terminal] *)
Definition restore_stdout : M unit := fun w => set_stdout (logger_terminal w) w.

(** What a callee does to the console, as far as its caller can tell:
    it prints lines and may end by raising. *)
Inductive action :=
| Print (message : string)
| PrintBlank
| Fail (e : exn).

Fixpoint perform (script : list action) : M unit :=
  match script with
  | [] => mret tt
  | Print m :: rest => print m ;; perform rest
  | PrintBlank :: rest => print_blank ;; perform rest
  | Fail e :: _ => raise e
  end.

(** A result computed elsewhere, raised here if it is an exception. *)
Definition lift {A} (r : result A) : M A := fun w => (r, w).

(** The world a script starts in. *)
Definition start (budget : option nat) (writable : bool) : world :=
  {| sys_stdout := Terminal;
     logger_terminal := Terminal;
     log_open := false;
     terminal_out := [];
     log_out := [];
     terminal_budget := budget;
     disk_writable := writable |}.

(** What a statement leaves alone: the binding of [sys.stdout], the
    logger's saved terminal and the state of the file handle. *)
Definition same_handles (w w' : world) : Prop :=
  sys_stdout w' = sys_stdout w /\
  logger_terminal w' = logger_terminal w /\
  log_open w' = log_open w.

Definition keeps_handles {A} (m : M A) : Prop := forall w, same_handles w (m w).2.

End pyio.

(** ** show_asset.py *)

Module show_asset.
Import pynum pydecimal pyjson.

(** The argument of [format_amount], as its docstring types it:
    [value (str | int | float | None)]. *)
Inductive amount :=
| ANone
| AStr (s : string)
| AInt (n : Z)
| AFloat (x : spec_float).

(** The [str] branch of [format_amount] (lines 150-166), inside the
    [try]. *)
Definition format_amount_str (value currency : string) : result string :=
  decimal_value ← Decimal_of_string value;
  small ← abs_lt_hundredth decimal_value;
  if small : bool then
    Ok (if String.eqb currency "JPY" || pystr.contains "JPY" value
           || negb (pystr.has_char "." value)
        then "0" else "0.00")
  else if String.eqb currency "JPY" || pystr.contains "JPY" value then
    x ← float_of_string value;
    n ← int_of_float x;
    Ok (str_int n)
  else Ok value.

(** [format_amount(value, currency='USD')] (lines 107-188).  The
    handler [except Exception: return str(value)] returns a [str]
    argument itself; for a number the only statement that can raise is
    [int(value)] on an infinity or a NaN, whose [str] is [inf], [-inf]
    or [nan]. *)
Definition format_amount (value : amount) (currency : string) : string :=
  match value with
  | ANone => "0"
  | AStr s =>
      match format_amount_str s currency with
      | Ok r => r
      | Raise _ => s
      end
  | AInt n =>
      if int_lt_float (Z.abs n) float_hundredth then "0"
      else if String.eqb currency "JPY" then format_comma_int n
      else str_int n
  | AFloat x =>
      if float_lt (SFabs x) float_hundredth then
        (if String.eqb currency "JPY" then "0" else "0.00")
      else if String.eqb currency "JPY" then
        match int_of_float x with
        | Ok n => format_comma_int n
        | Raise _ => str_nonfinite x
        end
      else format_comma_2f x
  end.

(** The environment [os.environ]. *)
Definition NUL : ascii := ascii_of_nat 0.

(** [not os.getenv(key)]: the variable is unset or empty. *)
Definition not_getenv (env : gmap string string) (key : string) : bool :=
  match env !! key with
  | Some v => negb (pystr.nonempty v)
  | None => true
  end.

(** [os.environ[key] = value] for a non-empty key without [=]: a NUL
    byte in either is refused with ValueError. *)
Definition setenv (env : gmap string string) (key value : string)
  : result (gmap string string) :=
  if pystr.has_char NUL key || pystr.has_char NUL value then Raise ValueError
  else Ok (<[key := value]> env).

(** Lines 254-258: one pair of surrounding quotes is removed. *)
Definition unquote (value : string) : string :=
  let dq := String pystr.dquote EmptyString in
  let sq := String pystr.squote EmptyString in
  if pystr.startswith value dq && pystr.endswith value dq then pystr.slice_1_m1 value
  else if pystr.startswith value sq && pystr.endswith value sq then pystr.slice_1_m1 value
  else value.

(** What a line of the file defines, when it defines something: the
    key and the value of lines 239-258. *)
Definition parse_line (line : string) : option (string * string) :=
  let line := pystr.strip line in
  if pystr.nonempty line && negb (pystr.startswith line "#") then
    match pystr.split_once "=" line with
    | Some (key, value) => Some (pystr.strip key, unquote (pystr.strip value))
    | None => None
    end
  else None.

(** The body of the loop over the lines (lines 239-263). *)
Definition load_line (env : gmap string string) (line : string)
  : result (gmap string string) :=
  match parse_line line with
  | Some (key, value) =>
      if pystr.nonempty key && pystr.nonempty value && not_getenv env key
      then setenv env key value
      else Ok env
  | None => Ok env
  end.

(** The loop: an exception leaves the environment as the lines before
    it made it. *)
Fixpoint load_lines (env : gmap string string) (lines : list string)
  : gmap string string * result unit :=
  match lines with
  | [] => (env, Ok tt)
  | line :: rest =>
      match load_line env line with
      | Ok env' => load_lines env' rest
      | Raise e => (env, Raise e)
      end
  end.

(** [load_env_file()] (lines 191-263): [env_file] is the lines of the
    [.env] file beside the script, [None] when there is no such file. *)
Definition load_env_file (env_file : option (list string)) (env : gmap string string)
  : gmap string string * result unit :=
  match env_file with
  | Some lines => load_lines env lines
  | None => (env, Ok tt)
  end.

(** Response normalisation (lines 458-472). *)
Definition normalize_positions (positions_data : json) : json :=
  match positions_data with
  | JArr _ => positions_data
  | JObj m =>
      match m !! "positions" with
      | Some v => v
      | None =>
          match m !! "data" with
          | Some v => v
          | None => JArr [positions_data]
          end
      end
  | _ => JArr []
  end.

(** Field reconciliation (lines 484 and 511-544): the default of the
    outer [get] is evaluated first. *)
Definition quantity_of (pos : json) : result json :=
  inner ← dict_get pos "quantity" (JInt 0);
  dict_get pos "position" inner.

Definition market_value_of (pos : json) : result json :=
  inner ← dict_get pos "market_value" (JInt 0);
  dict_get pos "marketValue" inner.

Definition cost_price_of (pos : json) : result json :=
  innermost ← dict_get pos "cost" (JInt 0);
  inner ← dict_get pos "cost_price" innermost;
  dict_get pos "costPrice" inner.

Definition last_price_of (pos : json) : result json :=
  inner ← dict_get pos "last_price" (JInt 0);
  dict_get pos "lastPrice" inner.

Definition unrealized_pl_of (pos : json) : result json :=
  inner ← dict_get pos "unrealized_profit_loss" JNull;
  dict_get pos "unrealizedProfitLoss" inner.

Definition unrealized_pl_rate_of (pos : json) : result json :=
  inner ← dict_get pos "unrealized_profit_loss_rate" JNull;
  dict_get pos "unrealizedProfitLossRate" inner.

Definition symbol_of (pos : json) : result json :=
  ticker_info ← dict_get pos "ticker" (JObj ∅);
  inner ← dict_get pos "symbol" (JStr "N/A");
  dict_get ticker_info "symbol" inner.

(** Lines 488-491: [float(quantity) if quantity else 0], then [> 0]. *)
Definition quantity_is_positive (quantity : json) : result bool :=
  if truthy quantity then
    quantity_float ← float_of_json quantity;
    Ok (float_lt (S754_zero false) quantity_float)
  else Ok false.

(** The filter loop (lines 479-496): [valid] is [valid_positions] so
    far.  ValueError and TypeError keep the record, any other
    exception leaves the loop. *)
Fixpoint filter_positions (positions valid : list json) : result (list json) :=
  match positions with
  | [] => Ok valid
  | pos :: rest =>
      quantity ← quantity_of pos;
      match quantity_is_positive quantity with
      | Ok true => filter_positions rest (valid ++ [pos])%list
      | Ok false => filter_positions rest valid
      | Raise e =>
          if is_value_or_type_error e then filter_positions rest (valid ++ [pos])%list
          else Raise e
      end
  end.

Definition valid_positions (positions : json) : result (list json) :=
  items ← iterate positions;
  filter_positions items [].

(** The help printed when a credential is missing (lines 748-769). *)
Definition missing_key_help : list pyio.action :=
  [ pyio.Print ("## ❌ エラー: APIキーとシークレットが設定されていません" +:+ pystr.NL);
    pyio.Print ("### 設定方法" +:+ pystr.NL);
    pyio.Print ("#### 1. .envファイルを使用(推奨)" +:+ pystr.NL);
    pyio.Print ("スクリプトと同じディレクトリに.envファイルを作成し、以下の内容を記載:" +:+ pystr.NL);
    pyio.Print ("```");
    pyio.Print ("WEBULL_APP_KEY=your_actual_key");
    pyio.Print ("WEBULL_APP_SECRET=your_actual_secret");
    pyio.Print ("```" +:+ pystr.NL);
    pyio.Print ("#### 2. 環境変数を使用" +:+ pystr.NL);
    pyio.Print ("```bash");
    pyio.Print ("export WEBULL_APP_KEY='your_actual_key'");
    pyio.Print ("export WEBULL_APP_SECRET='your_actual_secret'");
    pyio.Print ("```" +:+ pystr.NL);
    pyio.Print ("### APIキーの取得方法" +:+ pystr.NL);
    pyio.Print ("https://www.webull.co.jp/center でOpenAPIを申請してください" +:+ pystr.NL) ].

(** [os.getenv(key)] as a condition: set and not empty. *)
Definition getenv_truthy (env : gmap string string) (key : string) : option string :=
  match env !! key with
  | Some v => if pystr.nonempty v then Some v else None
  | None => None
  end.

Section main.

(** What [display_asset_info(app_key, app_secret)] prints, and whether
    it raises: it depends on the remote API. *)
Variable display_asset_info : string -> string -> list pyio.action.

(** The [try] block of [main] (lines 718-790); [now] is the formatted
    date, [env_file] the lines of the [.env] file. *)
Definition main_try (now : string) (env_file : option (list string))
    (env : gmap string string) : pyio.M unit :=
  pyio.print ("# Webull Japan - 資産情報レポート" +:+ pystr.NL) ;;
  pyio.print ("**生成日時**: " +:+ now +:+ pystr.NL) ;;
  pyio.print ("---" +:+ pystr.NL) ;;
  let '(env', loaded) := load_env_file env_file env in
  pyio.lift loaded ;;
  match getenv_truthy env' "WEBULL_APP_KEY", getenv_truthy env' "WEBULL_APP_SECRET" with
  | Some app_key, Some app_secret =>
      pyio.perform (display_asset_info app_key app_secret) ;;
      pyio.print (pystr.NL +:+ "---") ;;
      pyio.print (pystr.NL +:+ "*このレポートは自動生成されました*")
  | _, _ => pyio.perform missing_key_help
  end.

(** The [finally] block (lines 792-804). *)
Definition main_finally (output_file : string) : pyio.M unit :=
  pyio.restore_stdout ;;
  pyio.close_log ;;
  pyio.print (pystr.NL +:+ "✅ 出力ファイルが作成されました: " +:+ output_file).

(** [main()] (lines 671-804). *)
Definition main (output_file now : string) (env_file : option (list string))
    (env : gmap string string) : pyio.M unit :=
  pyio.open_logger ;;
  pyio.set_stdout pyio.Logger ;;
  pyio.try_finally (main_try now env_file env) (main_finally output_file).

End main.

End show_asset.

(** ** show_asset_v1.py *)

Module show_asset_v1.

(** [load_env_file()] (lines 14-46): the loop of show_asset.py between
    two messages; [path] is the [.env] path the messages show.  The
    printed lines come with the result. *)
Definition load_env_file (path : string) (env_file : option (list string))
    (env : gmap string string) : list string * (gmap string string * result unit) :=
  match env_file with
  | Some lines =>
      let r := show_asset.load_lines env lines in
      (("📄 .envファイルを読み込んでいます: " +:+ path) ::
       match r.2 with
       | Ok _ => [ "✅ .envファイルの読み込みが完了しました" +:+ pystr.NL ]
       | Raise _ => []
       end, r)
  | None =>
      ([ ("⚠️  .envファイルが見つかりません: " +:+ path);
         ("環境変数または直接設定を使用します" +:+ pystr.NL) ], (env, Ok tt))
  end.

Section preview.
Context {char : Type}.

(** The two parts of the key that line 215 of [main] prints around
    three dots (line 304 in show_asset_v2.py), on the characters of
    the key: [app_key[:8]] and
    [app_key[-4:] if len(app_key) > 12 else '']. *)
Definition key_head (app_key : list char) : list char := take 8 app_key.

Definition key_tail (app_key : list char) : list char :=
  if (12 <? length app_key)%nat then drop (length app_key - 4) app_key else [].

End preview.

End show_asset_v1.

(** ** show_asset_v2.py *)

Module show_asset_v2.
Import pynum pydecimal.

(** The [str] branch of [format_amount] (lines 25-30). *)
Definition format_amount_str (value : string) : result string :=
  decimal_value ← Decimal_of_string value;
  small ← abs_lt_hundredth decimal_value;
  if small : bool then
    Ok (if pystr.contains "JPY" value || negb (pystr.has_char "." value)
        then "0" else "0.00")
  else Ok value.

(** [format_amount(value)] (lines 15-40): the variant without a
    currency. *)
Definition format_amount (value : show_asset.amount) : string :=
  match value with
  | show_asset.ANone => "0"
  | show_asset.AStr s =>
      match format_amount_str s with
      | Ok r => r
      | Raise _ => s
      end
  | show_asset.AInt n =>
      if int_lt_float (Z.abs n) float_hundredth then "0" else str_int n
  | show_asset.AFloat x =>
      if float_lt (SFabs x) float_hundredth then "0.00" else format_comma_2f x
  end.

End show_asset_v2.

(** ** show_pos.py *)

Module show_pos.
Import pynum pydecimal pyjson.

(** What the SDK returns for a request: the HTTP status, the raw body
    and the body decoded by [response.json()], which may raise. *)
Record response := {
  status_code : Z;
  text : string;
  json_body : result json
}.

(** [api.account.get_account_position] with the account and the page
    size fixed: the answer to a request depends on the requests made
    before it (their number) and on [last_instrument_id], [None] when
    the argument is left out. *)
Definition position_api := nat -> option json -> response.

(** The lines [get_positions] prints when a request fails (lines
    151-153). *)
Definition failure_report (r : response) : list console_line :=
  [ Line ("エラー: ポジション情報の取得に失敗しました (ステータスコード: "
          +:+ str_int (status_code r) +:+ ")");
    Line ("レスポンス: " +:+ text r) ].

(** The loop over the holdings of a page (lines 131-140): a quantity
    that [Decimal] cannot read, or that does not compare, is skipped
    by the bare [except]. *)
Fixpoint filter_holdings (holdings all_positions : list json) : result (list json) :=
  match holdings with
  | [] => Ok all_positions
  | holding :: rest =>
      qty ← dict_get holding "qty" (JStr "0");
      match (qty_decimal ← Decimal qty; gt_zero qty_decimal) with
      | Ok true => filter_holdings rest (all_positions ++ [holding])%list
      | Ok false => filter_holdings rest all_positions
      | Raise _ => filter_holdings rest all_positions
      end
  end.

(** [holdings[-1]] for a non-empty value. *)
Definition last_item (v : json) : result json :=
  match v with
  | JArr l => match last l with Some x => Ok x | None => Raise KeyError end
  | JStr s => match last (characters s) with Some x => Ok x | None => Raise KeyError end
  | JObj _ => Raise KeyError
  | _ => Raise TypeError
  end.

(** A page with status 200 (lines 128-149): the positions so far with
    those of the page, and the cursor of the next page if there is one. *)
Definition page (r : response) (all_positions : list json)
  : result (list json * option json) :=
  data ← json_body r;
  holdings ← dict_get data "holdings" (JArr []);
  items ← iterate holdings;
  all_positions' ← filter_holdings items all_positions;
  has_next ← dict_get data "has_next" (JBool false);
  if truthy has_next && truthy holdings then
    last_holding ← last_item holdings;
    last_instrument_id ← dict_get last_holding "instrument_id" JNull;
    Ok (all_positions', Some last_instrument_id)
  else Ok (all_positions', None).

(** The [while True] loop (lines 113-154), [fuel] bounding the number
    of requests: [None] when the loop is still running after them,
    else the printed lines and what leaves the loop. *)
Fixpoint paging (api : position_api) (fuel calls : nat) (all_positions : list json)
    (last_instrument_id : json) : option (list console_line * result (list json)) :=
  match fuel with
  | O => None
  | S fuel' =>
      let r := api calls (if truthy last_instrument_id then Some last_instrument_id else None) in
      if status_code r =? 200 then
        match page r all_positions with
        | Ok (all_positions', Some next) => paging api fuel' (S calls) all_positions' next
        | Ok (all_positions', None) => Some ([], Ok all_positions')
        | Raise e => Some ([], Raise e)
        end
      else Some (failure_report r, Ok all_positions)
  end.

(** [get_positions(api, account_id)] (lines 97-160). *)
Definition get_positions (api : position_api) (fuel : nat)
  : option (list console_line * list json) :=
  match paging api fuel 0 [] JNull with
  | None => None
  | Some (out, Ok all_positions) => Some (out, all_positions)
  | Some (out, Raise e) =>
      Some ((out ++ [ ErrorLine "エラー: ポジション情報の取得中に例外が発生しました - " e ])%list, [])
  end.


Section names.
Context {char : Type}.

(** Lines 204-205 of [display_positions], on the characters of the
    name; [dot] is the full stop:
    [if len(instrument_name) > 28: instrument_name = instrument_name[:27] + "..."]. *)
Definition shorten_name (dot : char) (instrument_name : list char) : list char :=
  if (28 <? length instrument_name)%nat
  then (take 27 instrument_name ++ [dot; dot; dot])%list
  else instrument_name.

End names.

(** *** [format_currency]

    The built-ins [format_currency] applies to a [Decimal]. *)








(** *** The logger and [main]

    The logger of show_pos.py keeps no file open: every write opens
    the report file for appending and closes it again.  In the world
    of [pyio], [log_out] is the content of the file and
    [disk_writable] tells whether opening it succeeds. *)

(** [with open(self.filename, 'a') as f: f.write(message)] *)
Definition file_append (message : string) : pyio.M unit := fun w =>
  if pyio.disk_writable w then
    (Ok tt,
     {| pyio.sys_stdout := pyio.sys_stdout w;
        pyio.logger_terminal := pyio.logger_terminal w;
        pyio.log_open := pyio.log_open w;
        pyio.terminal_out := pyio.terminal_out w;
        pyio.log_out := (pyio.log_out w ++ [message])%list;
        pyio.terminal_budget := pyio.terminal_budget w;
        pyio.disk_writable := true |})
  else (Raise OSError, w).

(** [MarkdownLogger(filename)] (lines 21-26): the terminal is saved and
    the file emptied. *)
Definition new_logger : pyio.M unit := fun w =>
  if pyio.disk_writable w then
    (Ok tt,
     {| pyio.sys_stdout := pyio.sys_stdout w;
        pyio.logger_terminal := pyio.sys_stdout w;
        pyio.log_open := pyio.log_open w;
        pyio.terminal_out := pyio.terminal_out w;
        pyio.log_out := [];
        pyio.terminal_budget := pyio.terminal_budget w;
        pyio.disk_writable := true |})
  else (Raise OSError, w).

(** [MarkdownLogger.write(message)] (lines 28-32) *)
Definition logger_write (message : string) : pyio.M unit :=
  pyio.terminal_write message ;; file_append message.

(** [sys.stdout.write(message)] *)
Definition stdout_write (message : string) : pyio.M unit := fun w =>
  match pyio.sys_stdout w with
  | pyio.Terminal => pyio.terminal_write message w
  | pyio.Logger => logger_write message w
  end.

(** [print(message)] *)
Definition print (message : string) : pyio.M unit :=
  stdout_write message ;; stdout_write pystr.NL.

Fixpoint perform (script : list pyio.action) : pyio.M unit :=
  match script with
  | [] => mret tt
  | pyio.Print m :: rest => print m ;; perform rest
  | pyio.PrintBlank :: rest => stdout_write pystr.NL ;; perform rest
  | pyio.Fail e :: _ => pyio.raise e
  end.

(** [try: body except Exception as e: handler] *)
Definition try_except {A} (body : pyio.M A) (handler : exn -> pyio.M A) : pyio.M A :=
  fun w =>
    match body w with
    | (Raise e, w1) => handler e w1
    | done => done
    end.

(** [main()] (lines 273-336).  [have_keys] tells whether both
    credentials are set once [load_dotenv()] has run; [body] is what
    the [try] block prints and whether it raises (its messages, the
    SDK and the three functions it calls), [describe e] is [str(e)].
    What [traceback.print_exc()] sends to [sys.stderr] is left out. *)
Definition main (have_keys : bool) (describe : exn -> string) (body : list pyio.action)
  : pyio.M unit :=
  if have_keys then
    new_logger ;;
    pyio.set_stdout pyio.Logger ;;
    pyio.try_finally
      (try_except (perform body)
         (fun e => print (pystr.NL +:+ "エラー: 予期しない例外が発生しました - "
                          +:+ describe e)))
      (pyio.set_stdout pyio.Terminal)
  else
    print "エラー: WEBULL_APP_KEYまたはWEBULL_APP_SECRETが.envファイルに設定されていません。" ;;
    print ".envファイルを確認してください。".

End show_pos.

(** ** show_his.py *)

Module show_his.

(** [MarkdownLogger] (lines 44-80): a file name and the buffered lines. *)
Record MarkdownLogger := {
  filename : string;
  lines : list string
}.

(** The console and the files on disk. *)
Record world := {
  console : list console_line;
  disk : gmap string string
}.

Definition console_print (l : console_line) (w : world) : world :=
  {| console := (console w ++ [l])%list; disk := disk w |}.

(** [MarkdownLogger(filename)] *)
Definition new_logger (name : string) : MarkdownLogger :=
  {| filename := name; lines := [] |}.

(** [logger.print(message, to_file, to_console)] (lines 59-71) *)
Definition print (self : MarkdownLogger) (message : string) (to_file to_console : bool)
    (w : world) : MarkdownLogger * world :=
  let w' := if to_console then console_print (Line message) w else w in
  let self' :=
    if to_file
    then {| filename := filename self; lines := (lines self ++ [message])%list |}
    else self in
  (self', w').

(** [logger.save()] (lines 73-80); [failure] is the exception that
    opening or writing the file raises, if it raises one. *)
Definition save (self : MarkdownLogger) (failure : option exn) (w : world) : world :=
  match failure with
  | None =>
      console_print
        (Line (pystr.NL +:+ "✓ 結果を " +:+ filename self +:+ " に保存しました"))
        {| console := console w;
           disk := <[filename self := pystr.join pystr.NL (lines self)]> (disk w) |}
  | Some e => console_print (ErrorLine (pystr.NL +:+ "✗ ファイル保存エラー: ") e) w
  end.

(** A call of [logger.print]: the message and the two flags. *)
Record print_call := {
  message : string;
  to_file : bool;
  to_console : bool
}.

(** [logger.print(m)], [logger.print(m, to_file=False)] *)
Definition both (m : string) : print_call :=
  {| message := m; to_file := true; to_console := true |}.
Definition console_only (m : string) : print_call :=
  {| message := m; to_file := false; to_console := true |}.

(** A sequence of calls, in order. *)
Fixpoint print_all (self : MarkdownLogger) (calls : list print_call) (w : world)
  : MarkdownLogger * world :=
  match calls with
  | [] => (self, w)
  | c :: rest =>
      let '(self', w') := print self (message c) (to_file c) (to_console c) w in
      print_all self' rest w'
  end.

(** The calls of [main] up to the credential check and through it
    (lines 289-322); [now] is the formatted date. *)
Definition main_opening (now : string) (have_credentials : bool) : list print_call :=
  ([ both "# Webull Japan OpenAPI - 当日取引履歴";
     both "";
     both ("**実行日時**: " +:+ now);
     both "";
     both "---";
     both "";
     console_only "📋 環境変数の確認..." ] ++
   if have_credentials then
     [ console_only "✓ 認証情報を読み込みました";
       both "" ]
   else
     [ both "✗ エラー: .envファイルにWEBULL_APP_KEYとWEBULL_APP_SECRETを設定してください";
       both "";
       both "## エラー";
       both "";
       both "環境変数 `WEBULL_APP_KEY` と `WEBULL_APP_SECRET` が設定されていません。";
       both "";
       both ".envファイルを作成し、以下の形式で認証情報を設定してください:";
       both "";
       both "```";
       both "WEBULL_APP_KEY=your_app_key_here";
       both "WEBULL_APP_SECRET=your_app_secret_here";
       both "```" ])%list.

(** [format_currency_amount(amount, currency)] (lines 255-271), for an
    [amount] that is a [float], as the signature types it: nothing
    catches what [int(amount)] raises on an infinity or a NaN. *)
Definition format_currency_amount (amount : spec_float) (currency : string)
  : result string :=
  if String.eqb currency "JPY" then
    n ← pynum.int_of_float amount;
    Ok (pynum.format_comma_int n)
  else Ok (pynum.format_comma_2f amount).

(** The tables of [format_order_status], [format_order_side] and
    [format_order_type] (lines 209-217, 230-233, 246-251). *)
Definition status_map : gmap string string :=
  list_to_map
    [ ("Working", "処理中"); ("Filled", "約定"); ("Cancelled", "キャンセル");
      ("Rejected", "拒否"); ("PendingCancel", "キャンセル待ち");
      ("PartialFilled", "一部約定"); ("Failed", "失敗") ].

Definition side_map : gmap string string :=
  list_to_map [ ("BUY", "買"); ("SELL", "売") ].

Definition type_map : gmap string string :=
  list_to_map
    [ ("LIMIT", "指値"); ("MARKET", "成行"); ("STOP", "逆指値");
      ("STOP_LIMIT", "逆指値(指値)") ].

(** [table.get(code, code)] *)
Definition translate (table : gmap string string) (code : string) : string :=
  match table !! code with
  | Some label => label
  | None => code
  end.

Definition format_order_status : string -> string := translate status_map.
Definition format_order_side : string -> string := translate side_map.
Definition format_order_type : string -> string := translate type_map.

(** [api.order.list_today_orders(account_id, page_size,
    last_client_order_id)] with the account fixed: the answer depends
    on the requests made before it (their number), on the page size
    and on the cursor ([None] is [JNull]); the call itself may raise. *)
Definition order_api := nat -> Z -> json -> result show_pos.response.

(** [len(v)] *)
Definition len (v : json) : result Z :=
  match v with
  | JArr l => Ok (Z.of_nat (length l))
  | JStr s => Ok (Z.of_nat (String.length s))
  | JObj m => Ok (Z.of_nat (size m))
  | _ => Raise TypeError
  end.

(** A page with status 200 (lines 175-190): the orders so far with
    those of the page, and the cursor of the next page when the loop
    goes on. *)
Definition orders_page (r : show_pos.response) (page_size : Z) (all_orders : list json)
  : result (list json * option json) :=
  data ← show_pos.json_body r;
  orders ← dict_get data "data" (JArr []);
  if pyjson.truthy orders then
    items ← pyjson.iterate orders;
    n ← len orders;
    if n <? page_size then Ok ((all_orders ++ items)%list, None)
    else
      last_order ← show_pos.last_item orders;
      last_client_order_id ← dict_get last_order "client_order_id" JNull;
      Ok ((all_orders ++ items)%list, Some last_client_order_id)
  else Ok (all_orders, None).

(** The [try] block of [get_today_orders] (lines 162-197), [fuel]
    bounding the number of requests: [None] when the loop is still
    running after them, else the printed lines and the returned value,
    [None] standing for Python's [None]. *)
Fixpoint orders_loop (api : order_api) (page_size : Z) (fuel calls : nat)
    (all_orders : list json) (last_client_order_id : json)
  : option (list console_line * option (list json)) :=
  match fuel with
  | O => None
  | S fuel' =>
      match api calls page_size last_client_order_id with
      | Ok r =>
          if show_pos.status_code r =? 200 then
            match orders_page r page_size all_orders with
            | Ok (all_orders', Some next) =>
                orders_loop api page_size fuel' (S calls) all_orders' next
            | Ok (all_orders', None) => Some ([], Some all_orders')
            | Raise e => Some ([ ErrorLine "✗ 注文履歴取得エラー: " e ], None)
            end
          else
            Some ([ Line ("✗ 注文履歴取得エラー: ステータスコード "
                          +:+ pynum.str_int (show_pos.status_code r)) ], None)
      | Raise e => Some ([ ErrorLine "✗ 注文履歴取得エラー: " e ], None)
      end
  end.

(** [get_today_orders(page_size)] (lines 148-197); [account_id] is
    [self.account_id]. *)
Definition get_today_orders (account_id : json) (api : order_api) (page_size : Z)
    (fuel : nat) : option (list console_line * option (list json)) :=
  if pyjson.truthy account_id then orders_loop api page_size fuel 0 [] JNull
  else Some ([ Line "✗ アカウントIDが設定されていません" ], None).

End show_his.

(** ** show_symbol_us.py and show_symbol_jp.py

    The two scripts have the same [MarkdownLogger] and the same [main],
    which differ in the text they print. *)

Module show_symbol.

Section script.

(** The title of the report file and the text of the report: the
    lines printed before the credential check, after it when a
    credential is missing, after it otherwise, and from there on. *)
Variable title : string.
Variables opening missing_key key_found findings : list pyio.action.

(** [MarkdownLogger(filename)]: the file is opened and gets a header;
    [now] is the formatted date. *)
Definition new_logger (now : string) : pyio.M unit :=
  pyio.open_logger ;;
  pyio.log_write ("# " +:+ title +:+ pystr.NL +:+ pystr.NL) ;;
  pyio.log_write ("実行日時: " +:+ now +:+ pystr.NL +:+ pystr.NL) ;;
  pyio.log_write ("---" +:+ pystr.NL +:+ pystr.NL).

(** [logger.close()] *)
Definition close : pyio.M unit :=
  pyio.close_log ;;
  pyio.restore_stdout.

(** [main()]: [have_keys] tells whether both credentials are set once
    [load_dotenv()] has run; [saved_as] is the closing line, which
    names the report file. *)
Definition main (now : string) (have_keys : bool) (saved_as : string) : pyio.M unit :=
  new_logger now ;;
  pyio.set_stdout pyio.Logger ;;
  pyio.perform opening ;;
  pyio.perform (if have_keys then key_found else missing_key) ;;
  pyio.perform findings ;;
  pyio.print saved_as ;;
  close.

End script.

End show_symbol.

Module show_symbol_us.

(** Lines 45-51 of [main]. *)
Definition opening : list pyio.action :=
  [ pyio.Print "================================================================================";
    pyio.Print "米国株銘柄一覧取得スクリプト - 実行可否調査";
    pyio.Print "================================================================================";
    pyio.PrintBlank;
    pyio.Print ("## 1. 環境設定の確認" +:+ pystr.NL) ].

(** Lines 58-64 and 66. *)
Definition missing_key : list pyio.action :=
  [ pyio.Print ("### ⚠️ APIキーが設定されていません" +:+ pystr.NL);
    pyio.Print ("`.env`ファイルに以下の設定が必要です:" +:+ pystr.NL);
    pyio.Print "```";
    pyio.Print "WEBULL_APP_KEY=your_app_key_here";
    pyio.Print "WEBULL_APP_SECRET=your_app_secret_here";
    pyio.Print "```";
    pyio.PrintBlank ].

Definition key_found : list pyio.action :=
  [ pyio.Print ("### ✓ APIキーの設定を確認しました" +:+ pystr.NL) ].

(** [main()]; [findings] is the fixed text of lines 69-183. *)
Definition main (findings : list pyio.action) : string -> bool -> string -> pyio.M unit :=
  show_symbol.main "米国株銘柄一覧取得スクリプト実行結果" opening missing_key key_found findings.

End show_symbol_us.

Module show_symbol_jp.

(** Lines 46-53 of [main]. *)
Definition opening : list pyio.action :=
  [ pyio.Print "================================================================================";
    pyio.Print "Webull Japan OpenAPI - 日本株銘柄取得の実行可否調査";
    pyio.Print "================================================================================";
    pyio.PrintBlank;
    pyio.Print "## 1. 環境設定の確認";
    pyio.PrintBlank ].

(** Lines 60-67 and 69-70. *)
Definition missing_key : list pyio.action :=
  [ pyio.Print "### ⚠️ APIキーが設定されていません";
    pyio.PrintBlank;
    pyio.Print "`.env`ファイルに以下の設定が必要です:";
    pyio.Print "```";
    pyio.Print "WEBULL_APP_KEY=your_app_key_here";
    pyio.Print "WEBULL_APP_SECRET=your_app_secret_here";
    pyio.Print "```";
    pyio.PrintBlank ].

Definition key_found : list pyio.action :=
  [ pyio.Print "### ✓ APIキーの設定を確認しました";
    pyio.PrintBlank ].

(** [main()]; [findings] is the fixed text of lines 73-214. *)
Definition main (findings : list pyio.action) : string -> bool -> string -> pyio.M unit :=
  show_symbol.main "日本株銘柄取得スクリプト実行結果" opening missing_key key_found findings.

End show_symbol_jp.

(** ** The specification's vocabulary *)

Module spec.
Import pynum.

(** Field reconciliation as the specification words it: the value of
    the first key of a fixed priority list that the record has, the
    default when it has none. *)
Fixpoint first_present (record : gmap string json) (keys : list string) (dflt : json)
  : json :=
  match keys with
  | [] => dflt
  | k :: rest =>
      match record !! k with
      | Some v => v
      | None => first_present record rest dflt
      end
  end.

(** Groups of a comma and three digits. *)
Inductive comma_groups : string -> Prop :=
| groups_none : comma_groups EmptyString
| groups_more a b c rest :
    is_digit a = true -> is_digit b = true -> is_digit c = true ->
    comma_groups rest ->
    comma_groups (String "," (String a (String b (String c rest)))).

(** One to three digits, then groups of a comma and three digits. *)
Inductive thousands_separated : string -> Prop :=
| lead_one a rest :
    is_digit a = true -> comma_groups rest ->
    thousands_separated (String a rest)
| lead_two a b rest :
    is_digit a = true -> is_digit b = true -> comma_groups rest ->
    thousands_separated (String a (String b rest))
| lead_three a b c rest :
    is_digit a = true -> is_digit b = true -> is_digit c = true -> comma_groups rest ->
    thousands_separated (String a (String b (String c rest))).

(** An optional minus sign, a thousands-separated integer part, a
    point and exactly two digits. *)
Inductive two_decimal_places : string -> Prop :=
| two_decimals (neg : bool) whole a b :
    thousands_separated whole -> is_digit a = true -> is_digit b = true ->
    two_decimal_places
      ((if neg then "-" else "") +:+ whole +:+ "." +:+ String a (String b EmptyString)).

(** An optional minus sign and a thousands-separated integer, no
    decimal places. *)
Inductive no_decimal_places : string -> Prop :=
| no_decimals (neg : bool) whole :
    thousands_separated whole ->
    no_decimal_places ((if neg then "-" else "") +:+ whole).


(** [1/100 <= m * 2^e], cleared of denominators ([2^k] is 0 for a
    negative [k]). *)
Definition at_least_hundredth (x : spec_float) : Prop :=
  match x with
  | S754_finite _ m e => 2 ^ (- e) <= 100 * Zpos m
  | _ => False
  end.




(** What the filter of show_pos.py decides for one holding: held when
    [Decimal] reads the quantity and finds it above zero. *)
Definition pos_keeps (holding : json) : bool :=
  match dict_get holding "qty" (JStr "0") with
  | Ok qty =>
      match pyjson.Decimal qty with
      | Ok d => match pydecimal.gt_zero d with Ok b => b | Raise _ => false end
      | Raise _ => false
      end
  | Raise _ => false
  end.

(** The request a cursor leads to. *)
Definition request_after (last_instrument_id : json) : option json :=
  if pyjson.truthy last_instrument_id then Some last_instrument_id else None.


End spec.

(** ** Sample inputs *)

Module sample.

(** The floats 1234.5, 1234.9, 1234.56 and 0.001. *)
Definition f1234_5 : spec_float := S754_finite false 5429388417957888 (-42).
Definition f1234_56 : spec_float := S754_finite false 5429652300748554 (-42).

(** A record with the given quantity under the given key. *)
Definition record (key : string) (quantity : json) : json :=
  JObj (<[key := quantity]> (<["symbol" := JStr "VOO"]> ∅)).


End sample.

(** ** Runs of the paging loops

    What a run of consecutive successful requests looks like, for the
    statements about [get_today_orders] and [get_positions]. *)

Module pages.

(** [o.get('client_order_id')] *)
Definition client_order_id (o : gmap string json) : json :=
  match o !! "client_order_id" with
  | Some v => v
  | None => JNull
  end.

(** [full_order_pages api page_size n c got n' c']: from request [n]
    with cursor [c], the requests [n] to [n' - 1] all answer with
    status 200 and a full page, a list of at least [page_size] orders
    under the key data whose last one is a dict; [got] is these pages
    one after the other and [c'] the cursor the last one leaves. *)
Inductive full_order_pages (api : show_his.order_api) (page_size : Z)
  : nat -> json -> list json -> nat -> json -> Prop :=
| order_pages_none n c : full_order_pages api page_size n c [] n c
| order_pages_next n c r m p o got n' c' :
    api n page_size c = Ok r ->
    show_pos.status_code r = 200 ->
    show_pos.json_body r = Ok (JObj m) ->
    m !! "data" = Some (JArr p) ->
    page_size <= Z.of_nat (length p) ->
    last p = Some (JObj o) ->
    full_order_pages api page_size (S n) (client_order_id o) got n' c' ->
    full_order_pages api page_size n c (p ++ got)%list n' c'.

(** An order with the given id. *)
Definition order_fields (id : string) : gmap string json :=
  <["client_order_id" := JStr id]> (<["symbol" := JStr "VOO"]> ∅).

Definition order (id : string) : json := JObj (order_fields id).

Definition answer (status : Z) (body : result json) : show_pos.response :=
  {| show_pos.status_code := status; show_pos.text := ""; show_pos.json_body := body |}.

(** With a page size of 2: a full page, then a page of one order. *)
Definition three_orders : show_his.order_api := fun n _ _ =>
  match n with
  | O => Ok (answer 200 (Ok (JObj (<["data" := JArr [order "a"; order "b"]]> ∅))))
  | _ => Ok (answer 200 (Ok (JObj (<["data" := JArr [order "c"]]> ∅))))
  end.

(** With a page size of 2: a full page, then status 500. *)
Definition failing_orders : show_his.order_api := fun n _ _ =>
  match n with
  | O => Ok (answer 200 (Ok (JObj (<["data" := JArr [order "a"; order "b"]]> ∅))))
  | _ => Ok (answer 500 (Raise ValueError))
  end.

(** [h.get('instrument_id')] *)
Definition instrument_id (h : gmap string json) : json :=
  match h !! "instrument_id" with
  | Some v => v
  | None => JNull
  end.

(** [position_pages api n c got n' c']: from request [n] with cursor
    [c], the requests [n] to [n' - 1] all answer with status 200, a
    list of holdings that are dicts, the last one [h], and a true
    has_next; [got] is these lists one after the other and [c'] the
    cursor the last one leaves. *)
Inductive position_pages (api : show_pos.position_api)
  : nat -> json -> list json -> nat -> json -> Prop :=
| position_pages_none n c : position_pages api n c [] n c
| position_pages_next n c m hs h more got n' c' :
    show_pos.status_code (api n (spec.request_after c)) = 200 ->
    show_pos.json_body (api n (spec.request_after c)) = Ok (JObj m) ->
    m !! "holdings" = Some (JArr hs) ->
    Forall (fun x => exists fields, x = JObj fields) hs ->
    m !! "has_next" = Some more -> pyjson.truthy more = true ->
    last hs = Some (JObj h) ->
    position_pages api (S n) (instrument_id h) got n' c' ->
    position_pages api n c (hs ++ got)%list n' c'.

(** A holding with the given id and quantity. *)
Definition holding_fields (id qty : string) : gmap string json :=
  <["qty" := JStr qty]> (<["instrument_id" := JStr id]> ∅).

Definition holding (id qty : string) : json := JObj (holding_fields id qty).


(** The same first page, then a body that cannot be decoded. *)
Definition broken_second_page : show_pos.position_api := fun n _ =>
  match n with
  | O =>
      answer 200 (Ok (JObj (<["holdings" := JArr [holding "A1" "10"; holding "B2" "0"]]>
                             (<["has_next" := JBool true]> ∅))))
  | _ => answer 200 (Raise ValueError)
  end.

End pages.

(** ** The report file as a copy of the terminal *)

Module tee.

(** The file holds [header] and then what the terminal received. *)
Definition copied (header : list string) (w : pyio.world) : Prop :=
  pyio.log_out w = (header ++ pyio.terminal_out w)%list.

(** [sys.stdout] is the logger, the logger's file is open and holds
    [header] and then what the terminal received. *)
Definition copying (header : list string) (w : pyio.world) : Prop :=
  pyio.sys_stdout w = pyio.Logger /\ pyio.log_open w = true /\ copied header w.

Definition keeps_copying {A} (m : pyio.M A) : Prop :=
  forall header w, copying header w -> copying header (m w).2.

Definition ends_copied {A} (m : pyio.M A) : Prop :=
  forall header w, copying header w -> copied header (m w).2.

End tee.

(** * Properties *)

(** ** Response normalisation and field reconciliation *)

Section Normalisation.
Import show_asset pyjson spec.

Lemma normalize_list items : normalize_positions (JArr items) = JArr items.
Proof. reflexivity. Qed.

Lemma normalize_positions_key m v :
  m !! "positions" = Some v -> normalize_positions (JObj m) = v.
Proof. intros H. unfold normalize_positions. now rewrite H. Qed.

Lemma normalize_data_key m v :
  m !! "positions" = None -> m !! "data" = Some v -> normalize_positions (JObj m) = v.
Proof. intros H1 H2. unfold normalize_positions. now rewrite H1, H2. Qed.

Lemma normalize_bare_object m :
  m !! "positions" = None -> m !! "data" = None ->
  normalize_positions (JObj m) = JArr [JObj m].
Proof. intros H1 H2. unfold normalize_positions. now rewrite H1, H2. Qed.

(** C5.  Normalisation tries the shapes in the order list, [positions]
    key, [data] key, single record: a raw array of N records yields
    those N records; a mapping with a [positions] key yields the N
    elements of that array, whatever else it contains; a mapping with
    a [data] key and no [positions] key yields the N elements of
    [data]; a mapping with neither key yields exactly one record, the
    mapping itself. *)
Theorem normalization_follows_shape_priority :
  (forall items,
      iterate (normalize_positions (JArr items)) = Ok items) /\
  (forall m items,
      m !! "positions" = Some (JArr items) ->
      iterate (normalize_positions (JObj m)) = Ok items) /\
  (forall m items,
      m !! "positions" = None -> m !! "data" = Some (JArr items) ->
      iterate (normalize_positions (JObj m)) = Ok items) /\
  (forall m,
      m !! "positions" = None -> m !! "data" = None ->
      iterate (normalize_positions (JObj m)) = Ok [JObj m]).
Proof.
  repeat split.
  - intros m items H. now rewrite (normalize_positions_key _ _ H).
  - intros m items H1 H2. now rewrite (normalize_data_key _ _ H1 H2).
  - intros m H1 H2. now rewrite (normalize_bare_object _ H1 H2).
Qed.

Lemma get_chain_one m k1 d :
  dict_get (JObj m) k1 d = Ok (first_present m [k1] d).
Proof. reflexivity. Qed.

Lemma get_chain_two m k1 k2 d :
  (inner ← dict_get (JObj m) k2 d; dict_get (JObj m) k1 inner)
  = Ok (first_present m [k1; k2] d).
Proof. cbn. destruct (m !! k1); reflexivity. Qed.

Lemma get_chain_three m k1 k2 k3 d :
  (innermost ← dict_get (JObj m) k3 d;
   inner ← dict_get (JObj m) k2 innermost;
   dict_get (JObj m) k1 inner)
  = Ok (first_present m [k1; k2; k3] d).
Proof. cbn. destruct (m !! k1), (m !! k2); reflexivity. Qed.

(** C6.  For every record, each logical field resolves to the value of
    the first present key of its fixed priority list ([position]
    before [quantity], [marketValue] before [market_value], ...), the
    other alternates being ignored; the record with position 5 and
    quantity 10 has quantity 5. *)
Theorem reconciliation_takes_first_present_key :
  (forall m,
      quantity_of (JObj m) = Ok (first_present m ["position"; "quantity"] (JInt 0)) /\
      market_value_of (JObj m)
        = Ok (first_present m ["marketValue"; "market_value"] (JInt 0)) /\
      cost_price_of (JObj m)
        = Ok (first_present m ["costPrice"; "cost_price"; "cost"] (JInt 0)) /\
      last_price_of (JObj m)
        = Ok (first_present m ["lastPrice"; "last_price"] (JInt 0)) /\
      unrealized_pl_of (JObj m)
        = Ok (first_present m ["unrealizedProfitLoss"; "unrealized_profit_loss"] JNull) /\
      unrealized_pl_rate_of (JObj m)
        = Ok (first_present m
                ["unrealizedProfitLossRate"; "unrealized_profit_loss_rate"] JNull)) /\
  quantity_of (JObj (<["position" := JInt 5]> (<["quantity" := JInt 10]> ∅))) = Ok (JInt 5).
Proof.
  split.
  - intros m. unfold quantity_of, market_value_of, cost_price_of, last_price_of,
      unrealized_pl_of, unrealized_pl_rate_of.
    rewrite !get_chain_two, get_chain_three. repeat split.
  - vm_compute. reflexivity.
Qed.

End Normalisation.

Lemma normalization_witness :
  pyjson.iterate
    (show_asset.normalize_positions
       (JObj (<["positions" := JArr [JInt 1; JInt 2]]> (<["data" := JArr [JInt 3]]> ∅))))
  = Ok [JInt 1; JInt 2].
Proof.
  apply (proj1 (proj2 normalization_follows_shape_priority)).
  vm_compute. reflexivity.
Defined.

(** ** The order-history logger *)

Section OrderHistoryLogger.
Import show_his.

Lemma print_console_only self m w :
  print self m false true w = (self, console_print (Line m) w).
Proof. reflexivity. Qed.

Lemma print_to_file_appends self m c w :
  lines (print self m true c w).1 = (lines self ++ [m])%list.
Proof. reflexivity. Qed.

Lemma print_keeps_filename self m f c w :
  filename (print self m f c w).1 = filename self.
Proof. destruct f; reflexivity. Qed.

(** The buffer after a sequence of calls: the earlier lines, then the
    file-eligible messages in call order. *)
Lemma print_all_lines calls : forall self w,
  lines (print_all self calls w).1
  = (lines self ++ (message <$> filter (fun c => to_file c = true) calls))%list.
Proof.
  induction calls as [|c calls IH]; intros self w; cbn [print_all].
  - now rewrite app_nil_r.
  - destruct (print self (message c) (to_file c) (to_console c) w) as [self' w'] eqn:E.
    rewrite IH.
    assert (lines self' = if to_file c then (lines self ++ [message c])%list else lines self)
      as -> by (unfold print in E; inversion E; destruct (to_file c); reflexivity).
    rewrite filter_cons. destruct (to_file c) eqn:F.
    + rewrite decide_True by reflexivity. cbn. now rewrite <- app_assoc.
    + rewrite decide_False by discriminate. reflexivity.
Qed.

Lemma print_all_filename calls : forall self w,
  filename (print_all self calls w).1 = filename self.
Proof.
  induction calls as [|c calls IH]; intros self w; cbn [print_all]; [reflexivity|].
  destruct (print self (message c) (to_file c) (to_console c) w) as [self' w'] eqn:E.
  rewrite IH. now rewrite <- (print_keeps_filename self (message c) (to_file c) (to_console c) w), E.
Qed.

(** The console after a sequence of calls: the earlier lines, then
    the console-eligible messages in call order. *)
Lemma print_all_console calls : forall self w,
  console (print_all self calls w).2
  = (console w ++ (Line ∘ message <$> filter (fun c => to_console c = true) calls))%list.
Proof.
  induction calls as [|c calls IH]; intros self w; cbn [print_all].
  - now rewrite app_nil_r.
  - destruct (print self (message c) (to_file c) (to_console c) w) as [self' w'] eqn:E.
    rewrite IH.
    assert (console w' = if to_console c then (console w ++ [Line (message c)])%list
                         else console w) as ->
      by (unfold print in E; inversion E; destruct (to_console c); reflexivity).
    rewrite filter_cons. destruct (to_console c) eqn:F.
    + rewrite decide_True by reflexivity. cbn. now rewrite <- app_assoc.
    + rewrite decide_False by discriminate. reflexivity.
Qed.

Lemma save_writes_buffer self w :
  disk (save self None w) !! filename self = Some (pystr.join pystr.NL (lines self)).
Proof. cbn. apply lookup_insert_eq. Qed.

(** C9.  A call of [logger.print] with [to_file=False] sends the
    message to the console and leaves the buffer as it was; a call
    with [to_file=True] appends the message to the buffer.  So after
    any sequence of calls on a new logger the buffer holds exactly the
    file-eligible messages in call order, the file that [save] writes
    is these messages joined by line ends, and the console-only lines
    of [main] (the credential confirmations) are not in it. *)
Theorem logger_routes_messages_selectively :
  (forall self m w, print self m false true w = (self, console_print (Line m) w)) /\
  (forall self m c w, lines (print self m true c w).1 = (lines self ++ [m])%list) /\
  (forall name calls w,
      let '(logger, w') := print_all (new_logger name) calls w in
      lines logger = message <$> filter (fun c => to_file c = true) calls /\
      console w' = (console w ++ (Line ∘ message
                                    <$> filter (fun c => to_console c = true) calls))%list /\
      disk (save logger None w') !! name
      = Some (pystr.join pystr.NL (message <$> filter (fun c => to_file c = true) calls))) /\
  (forall name now w,
      let '(logger, w') := print_all (new_logger name) (main_opening now true) w in
      lines logger = [ "# Webull Japan OpenAPI - 当日取引履歴"; "";
                       "**実行日時**: " +:+ now; ""; "---"; ""; "" ] /\
      console w' = (console w ++
                    [ Line "# Webull Japan OpenAPI - 当日取引履歴"; Line "";
                      Line ("**実行日時**: " +:+ now); Line ""; Line "---"; Line "";
                      Line "📋 環境変数の確認..."; Line "✓ 認証情報を読み込みました";
                      Line "" ])%list).
Proof.
  split; [exact print_console_only|].
  split; [exact print_to_file_appends|].
  split.
  - intros name calls w.
    pose proof (print_all_lines calls (new_logger name) w) as HL.
    pose proof (print_all_console calls (new_logger name) w) as HC.
    pose proof (print_all_filename calls (new_logger name) w) as HF.
    destruct (print_all (new_logger name) calls w) as [logger w'].
    cbn [fst snd new_logger lines filename app] in HL, HC, HF.
    repeat split; [exact HL|exact HC|].
    rewrite <- HF, <- HL. apply save_writes_buffer.
  - intros name now w.
    pose proof (print_all_lines (main_opening now true) (new_logger name) w) as HL.
    pose proof (print_all_console (main_opening now true) (new_logger name) w) as HC.
    destruct (print_all (new_logger name) (main_opening now true) w) as [logger w'].
    cbn [fst snd] in HL, HC. split; [exact HL|exact HC].
Qed.

End OrderHistoryLogger.

(** ** Credential loading *)

Section CredentialLoading.
Import show_asset.

Lemma nonempty_iff s : pystr.nonempty s = true <-> s <> EmptyString.
Proof. destruct s; cbn; split; congruence. Qed.







End CredentialLoading.



(** ** Paging through the positions *)

Section Paging.
Import show_pos spec.




End Paging.


(** ** The report file and [sys.stdout] on the exit paths of [main] *)

Section OutputLifecycle.
Import pyio.

Lemma same_handles_refl w : same_handles w w.
Proof. now repeat split. Qed.

Lemma same_handles_trans w1 w2 w3 :
  same_handles w1 w2 -> same_handles w2 w3 -> same_handles w1 w3.
Proof. unfold same_handles. intros (?&?&?) (?&?&?). repeat split; congruence. Qed.

Lemma bind_run {A B} (m : M A) (f : A -> M B) w :
  (m ≫= f) w = match m w with
               | (Ok a, w') => f a w'
               | (Raise e, w') => (Raise e, w')
               end.
Proof. reflexivity. Qed.

Lemma keeps_bind {A B} (m : M A) (f : A -> M B) :
  keeps_handles m -> (forall a, keeps_handles (f a)) -> keeps_handles (m ≫= f).
Proof.
  intros Hm Hf w. rewrite bind_run. specialize (Hm w).
  destruct (m w) as [[a|e] w1]; cbn [snd] in *; [|exact Hm].
  exact (same_handles_trans _ _ _ Hm (Hf a w1)).
Qed.

Lemma keeps_ret {A} (a : A) : keeps_handles (mret a : M A).
Proof. intros w. apply same_handles_refl. Qed.

Lemma keeps_raise {A} e : keeps_handles (raise e : M A).
Proof. intros w. apply same_handles_refl. Qed.

Lemma keeps_lift {A} (r : result A) : keeps_handles (lift r).
Proof. intros w. apply same_handles_refl. Qed.

Lemma keeps_terminal_write m : keeps_handles (terminal_write m).
Proof.
  intros w. unfold terminal_write.
  destruct (terminal_budget w) as [[|n]|]; now repeat split.
Qed.

Lemma keeps_log_write m : keeps_handles (log_write m).
Proof.
  intros w. unfold log_write. destruct (log_open w) eqn:E; repeat split; cbn; congruence.
Qed.

Lemma keeps_stdout_write m : keeps_handles (stdout_write m).
Proof.
  intros w. unfold stdout_write. destruct (sys_stdout w).
  - apply keeps_terminal_write.
  - apply (keeps_bind (terminal_write m) (fun _ => log_write m));
      [apply keeps_terminal_write|intros _; apply keeps_log_write].
Qed.

Lemma keeps_print m : keeps_handles (print m).
Proof. apply keeps_bind; [|intros _]; apply keeps_stdout_write. Qed.

Lemma keeps_print_blank : keeps_handles print_blank.
Proof. apply keeps_stdout_write. Qed.

Lemma keeps_perform script : keeps_handles (perform script).
Proof.
  induction script as [|[m| |e] rest IH]; cbn [perform].
  - apply keeps_ret.
  - apply keeps_bind; [apply keeps_print|now intros _].
  - apply keeps_bind; [apply keeps_print_blank|now intros _].
  - apply keeps_raise.
Qed.

Lemma keeps_main_try display now env_file env :
  keeps_handles (show_asset.main_try display now env_file env).
Proof.
  unfold show_asset.main_try.
  repeat (apply keeps_bind; [apply keeps_print|intros _]).
  destruct (show_asset.load_env_file env_file env) as [env' loaded].
  apply keeps_bind; [apply keeps_lift|intros _].
  destruct (show_asset.getenv_truthy env' "WEBULL_APP_KEY") as [k|];
    [destruct (show_asset.getenv_truthy env' "WEBULL_APP_SECRET") as [s|]|];
    try apply keeps_perform.
  apply keeps_bind; [apply keeps_perform|intros _].
  apply keeps_bind; [|intros _]; apply keeps_print.
Qed.

(** The [finally] block of show_asset.py closes the file and rebinds
    [sys.stdout] to the logger's saved terminal, also when its own
    [print] raises. *)
Lemma main_finally_closes output w :
  let w' := (show_asset.main_finally output w).2 in
  sys_stdout w' = logger_terminal w /\ log_open w' = false.
Proof.
  unfold show_asset.main_finally.
  rewrite bind_run. unfold restore_stdout, set_stdout. cbv beta iota.
  rewrite bind_run. unfold close_log. cbv beta iota.
  match goal with
  | |- context [print ?m ?w0] =>
      pose proof (keeps_print m w0) as (H1 & _ & H3); destruct (print m w0) as [[?|?] w2]
  end; cbn [snd sys_stdout log_open] in *; split; assumption.
Qed.

(** X22.  On every exit path of [main] of show_asset.py (the
    constructor of the logger failing, a normal end, the early return,
    an exception in the [try] block or in the [finally] block) the
    file handle is closed and [sys.stdout] is the terminal again. *)
Lemma asset_main_restores_on_every_path display output now env_file env budget writable :
  let w' := (show_asset.main display output now env_file env (start budget writable)).2 in
  sys_stdout w' = Terminal /\ log_open w' = false.
Proof.
  unfold show_asset.main. rewrite bind_run. unfold open_logger.
  destruct writable; cbn [start disk_writable sys_stdout]; [|now split].
  rewrite bind_run. unfold set_stdout. cbv beta iota.
  cbn [sys_stdout logger_terminal log_open terminal_out log_out
       terminal_budget disk_writable].
  unfold try_finally.
  match goal with
  | |- context [show_asset.main_try ?d ?n ?f ?e ?w0] =>
      pose proof (keeps_main_try d n f e w0) as (_ & H2 & _);
      destruct (show_asset.main_try d n f e w0) as [r w1]
  end.
  cbn [snd logger_terminal] in H2.
  pose proof (main_finally_closes output w1) as [H4 H5]. cbn zeta in H4, H5.
  destruct (show_asset.main_finally output w1) as [[?|?] w2]; cbn [snd] in *;
    split; congruence.
Qed.

(** A statement that keeps the handles, followed by one that keeps
    them whenever it raises: the sequence keeps them whenever it
    raises. *)
Lemma raising_bind {A B} (m : M A) (f : A -> M B) :
  keeps_handles m ->
  (forall a w e w', f a w = (Raise e, w') -> same_handles w w') ->
  forall w e w', (m ≫= f) w = (Raise e, w') -> same_handles w w'.
Proof.
  intros Hm Hf w e w'. rewrite bind_run. specialize (Hm w).
  destruct (m w) as [[a|e1] w1]; cbn [snd] in Hm.
  - intros E. exact (same_handles_trans _ _ _ Hm (Hf _ _ _ _ E)).
  - now intros [= <- <-].
Qed.

Lemma symbol_close_never_raises w e w' : show_symbol.close w <> (Raise e, w').
Proof. unfold show_symbol.close. rewrite bind_run. unfold close_log. discriminate. Qed.

Lemma symbol_logger_created title now budget :
  show_symbol.new_logger title now (start budget true)
  = (Ok tt,
     {| sys_stdout := Terminal;
        logger_terminal := Terminal;
        log_open := true;
        terminal_out := [];
        log_out := [ "# " +:+ title +:+ pystr.NL +:+ pystr.NL;
                     "実行日時: " +:+ now +:+ pystr.NL +:+ pystr.NL;
                     "---" +:+ pystr.NL +:+ pystr.NL ];
        terminal_budget := budget;
        disk_writable := true |}).
Proof. reflexivity. Qed.

(** C7 fails for show_symbol_us.py and show_symbol_jp.py: whenever
    their [main] ends by an exception raised after the logger was
    created, the report file is still open and [sys.stdout] is still
    the logger; only the normal end closes and restores. *)
Theorem symbol_main_raising_leaves_output_redirected
    title opening missing_key key_found findings now have_keys saved_as budget e w' :
  show_symbol.main title opening missing_key key_found findings now have_keys saved_as
    (start budget true) = (Raise e, w') ->
  sys_stdout w' = Logger /\ log_open w' = true.
Proof.
  unfold show_symbol.main.
  rewrite bind_run, (symbol_logger_created title now budget). cbv beta iota.
  rewrite bind_run. unfold set_stdout at 1. cbv beta iota.
  cbn [sys_stdout logger_terminal log_open terminal_out log_out terminal_budget
       disk_writable].
  match goal with
  | |- _ ?w1 = _ -> _ => set (w1' := w1)
  end.
  intros E.
  assert (same_handles w1' w') as (H1 & _ & H3); [|split; assumption].
  revert E. generalize w1' e w'. clear.
  apply raising_bind; [apply keeps_perform|intros _].
  apply raising_bind; [apply keeps_perform|intros _].
  apply raising_bind; [apply keeps_perform|intros _].
  apply raising_bind; [apply keeps_print|intros _].
  intros w e w' E. now apply symbol_close_never_raises in E.
Qed.

End OutputLifecycle.

(** The terminal takes the first line of the report of
    show_symbol_us.py and refuses the second: [main] raises, the file
    stays open and [sys.stdout] stays redirected. *)
Lemma symbol_main_raising_witness :
  pyio.sys_stdout
    (show_symbol_us.main [] "2025-11-19" false "saved" (pyio.start (Some 2%nat) true)).2
  = pyio.Logger /\
  pyio.log_open
    (show_symbol_us.main [] "2025-11-19" false "saved" (pyio.start (Some 2%nat) true)).2
  = true.
Proof.
  refine (symbol_main_raising_leaves_output_redirected
            "米国株銘柄一覧取得スクリプト実行結果"
            show_symbol_us.opening show_symbol_us.missing_key show_symbol_us.key_found
            [] "2025-11-19" false "saved" (Some 2%nat) OSError
            (show_symbol_us.main [] "2025-11-19" false "saved"
               (pyio.start (Some 2%nat) true)).2 _).
  vm_compute. reflexivity.
Defined.

(** ** The held-positions filters *)

Section HeldPositions.
Import pyjson spec.




(** One turn of the loop of show_pos.py. *)
Lemma filter_holdings_step m rest acc :
  show_pos.filter_holdings (JObj m :: rest) acc
  = show_pos.filter_holdings rest
      (if pos_keeps (JObj m) then (acc ++ [JObj m])%list else acc).
Proof.
  cbn [show_pos.filter_holdings]. unfold pos_keeps.
  cbn [dict_get mbind result_bind].
  destruct (Decimal _) as [d|e]; cbn [mbind result_bind]; [|reflexivity].
  destruct (pydecimal.gt_zero d) as [[|]|e]; reflexivity.
Qed.

Lemma filter_holdings_is_filter holdings : forall acc,
  Forall (fun h => exists m, h = JObj m) holdings ->
  show_pos.filter_holdings holdings acc
  = Ok (acc ++ filter (fun h => pos_keeps h = true) holdings)%list.
Proof.
  induction holdings as [|h rest IH]; intros acc Hall.
  - cbn. now rewrite app_nil_r.
  - apply Forall_cons in Hall as [[m ->] Hrest].
    rewrite filter_holdings_step, (IH _ Hrest), filter_cons.
    destruct (pos_keeps (JObj m)).
    + rewrite decide_True by reflexivity. now rewrite <- app_assoc.
    + now rewrite decide_False by discriminate.
Qed.


End HeldPositions.



(** ** Digits and thousands separators *)

Section Digits.
Import pynum pydecimal spec.

Lemma uint_digits d : all_digits (NilEmpty.string_of_uint d) = true.
Proof. induction d; cbn; auto. Qed.

Lemma str_nat_digits n : all_digits (str_nat n) = true.
Proof.
  unfold str_nat, NilZero.string_of_uint.
  destruct (N.to_uint (Z.to_N n)) eqn:E; try reflexivity;
    rewrite <- E at 1; rewrite E; apply (uint_digits (_ _)).
Qed.

Lemma str_nat_nonempty n : pystr.nonempty (str_nat n) = true.
Proof.
  unfold str_nat, NilZero.string_of_uint.
  destruct (N.to_uint (Z.to_N n)); reflexivity.
Qed.

Lemma digit_char_is_digit d : 0 <= d < 10 -> is_digit (digit_char d) = true.
Proof.
  intros H.
  assert (d = 0 \/ d = 1 \/ d = 2 \/ d = 3 \/ d = 4 \/ d = 5 \/ d = 6 \/ d = 7 \/ d = 8 \/ d = 9)
    as Hd by lia.
  repeat (destruct Hd as [->|Hd]; [reflexivity|]). now subst.
Qed.

Lemma mod3_0 n : ((3 * n) mod 3 = 0)%nat.
Proof. rewrite Nat.mul_comm. apply Nat.Div0.mod_mul. Qed.

Lemma mod3_1 n : (S (3 * n) mod 3 = 1)%nat.
Proof.
  replace (S (3 * n)) with (1 + n * 3)%nat by lia. now rewrite Nat.Div0.mod_add.
Qed.

Lemma mod3_2 n : (S (S (3 * n)) mod 3 = 2)%nat.
Proof.
  replace (S (S (3 * n))) with (2 + n * 3)%nat by lia. now rewrite Nat.Div0.mod_add.
Qed.

(** What [commas] puts after the leading digits: nothing, or a comma
    and the rest with its commas. *)
Lemma commas_tail_groups n : forall t,
  String.length t = (3 * n)%nat -> all_digits t = true ->
  comma_groups (match t with
                | EmptyString => EmptyString
                | String _ _ => String "," (commas t)
                end).
Proof.
  induction n as [|n IH]; intros t Hlen Hdig.
  - destruct t; [constructor|discriminate].
  - destruct t as [|a [|b [|c t]]]; cbn in Hlen; try lia.
    cbn in Hdig. apply andb_prop in Hdig as [Ha Hdig].
    apply andb_prop in Hdig as [Hb Hdig]. apply andb_prop in Hdig as [Hc Hdig].
    assert (String.length t = (3 * n)%nat) as Ht by lia.
    specialize (IH t Ht Hdig).
    cbn [commas pystr.nonempty String.length andb]. rewrite Ht.
    rewrite mod3_2, mod3_1, mod3_0. cbn [Nat.eqb andb].
    destruct t as [|d t]; cbn [pystr.nonempty commas].
    + now constructor.
    + cbn [pystr.nonempty] in IH. now constructor.
Qed.

Lemma commas_thousands s :
  pystr.nonempty s = true -> all_digits s = true -> thousands_separated (commas s).
Proof.
  intros Hne Hdig.
  assert (exists n, String.length s = S (3 * n) \/ String.length s = S (S (3 * n)) \/
                    String.length s = S (S (S (3 * n)))) as (n & Hn).
  { destruct s as [|a s]; [discriminate|]. cbn [String.length].
    exists (String.length s / 3)%nat.
    pose proof (Nat.div_mod_eq (String.length s) 3) as E.
    pose proof (Nat.mod_upper_bound (String.length s) 3) as B. lia. }
  destruct Hn as [Hn|[Hn|Hn]].
  - destruct s as [|a t]; cbn in Hn; try lia. cbn in Hdig.
    apply andb_prop in Hdig as [Ha Hdig].
    assert (String.length t = (3 * n)%nat) as Ht by lia.
    pose proof (commas_tail_groups n t Ht Hdig) as G.
    cbn [commas]. rewrite Ht, mod3_0. cbn [Nat.eqb].
    destruct t; cbn [pystr.nonempty andb commas] in *; now constructor.
  - destruct s as [|a [|b t]]; cbn in Hn; try lia. cbn in Hdig.
    apply andb_prop in Hdig as [Ha Hdig]. apply andb_prop in Hdig as [Hb Hdig].
    assert (String.length t = (3 * n)%nat) as Ht by lia.
    pose proof (commas_tail_groups n t Ht Hdig) as G.
    cbn [commas pystr.nonempty String.length andb]. rewrite Ht, mod3_1, mod3_0.
    cbn [Nat.eqb].
    destruct t; cbn [pystr.nonempty andb commas] in *; now constructor.
  - destruct s as [|a [|b [|c t]]]; cbn in Hn; try lia. cbn in Hdig.
    apply andb_prop in Hdig as [Ha Hdig]. apply andb_prop in Hdig as [Hb Hdig].
    apply andb_prop in Hdig as [Hc Hdig].
    assert (String.length t = (3 * n)%nat) as Ht by lia.
    pose proof (commas_tail_groups n t Ht Hdig) as G.
    cbn [commas pystr.nonempty String.length andb]. rewrite Ht, mod3_2, mod3_1, mod3_0.
    cbn [Nat.eqb].
    destruct t; cbn [pystr.nonempty andb commas] in *; now constructor.
Qed.

(** [f"{n:,}"] has the shape the specification asks of a JPY amount. *)
Lemma format_comma_int_shape n : no_decimal_places (format_comma_int n).
Proof.
  unfold format_comma_int. destruct (n <? 0).
  - apply (no_decimals true), commas_thousands;
      [apply str_nat_nonempty|apply str_nat_digits].
  - apply (no_decimals false), commas_thousands;
      [apply str_nat_nonempty|apply str_nat_digits].
Qed.

(** The [.2f] rendering has the shape the specification asks of the
    other currencies. *)
Lemma fixed2_shape neg h : two_decimal_places (fixed2 neg h).
Proof.
  unfold fixed2, two_digits.
  pose proof (Z.mod_pos_bound h 100 ltac:(lia)) as B.
  apply two_decimals.
  - apply commas_thousands; [apply str_nat_nonempty|apply str_nat_digits].
  - apply digit_char_is_digit.
    split; [apply Z.div_pos; lia|apply Z.div_lt_upper_bound; lia].
  - apply digit_char_is_digit. apply Z.mod_pos_bound. lia.
Qed.


End Digits.

(** ** Floats against the threshold 0.01 *)

Section Threshold.
Import pynum spec.

Lemma digits2_bounds m :
  2 ^ (Zpos (digits2_pos m) - 1) <= Zpos m < 2 ^ Zpos (digits2_pos m).
Proof.
  induction m as [m IH|m IH|]; cbn [digits2_pos].
  - rewrite Pos2Z.inj_succ. change (Zpos m~1) with (2 * Zpos m + 1).
    replace (Z.succ (Zpos (digits2_pos m)) - 1) with (Z.succ (Zpos (digits2_pos m) - 1)) by lia.
    rewrite !Z.pow_succ_r by lia.
    revert IH. generalize (2 ^ (Zpos (digits2_pos m) - 1)) (2 ^ Zpos (digits2_pos m)).
    intros a b IH. lia.
  - rewrite Pos2Z.inj_succ. change (Zpos m~0) with (2 * Zpos m).
    replace (Z.succ (Zpos (digits2_pos m)) - 1) with (Z.succ (Zpos (digits2_pos m) - 1)) by lia.
    rewrite !Z.pow_succ_r by lia.
    revert IH. generalize (2 ^ (Zpos (digits2_pos m) - 1)) (2 ^ Zpos (digits2_pos m)).
    intros a b IH. lia.
  - cbn. lia.
Qed.

(** A binary64 mantissa has at most 53 bits, and exactly 53 unless the
    exponent is the least one. *)
Lemma binary64_mantissa m e :
  bounded prec emax m e = true ->
  Zpos m < 2 ^ 53 /\ (-1074 < e -> 2 ^ 52 <= Zpos m).
Proof.
  unfold bounded, canonical_mantissa, fexp, SpecFloat.emin, prec, emax.
  intros H. apply andb_prop in H as [H _]. apply Z.eqb_eq in H.
  pose proof (digits2_bounds m) as [Hlo Hhi].
  set (d := Zpos (digits2_pos m)) in *.
  assert (d = 53 \/ (e = -1074 /\ d < 53)) as [Hd|[He Hd]] by lia.
  - rewrite Hd in Hlo, Hhi. split; [exact Hhi|intros _; exact Hlo].
  - split; [|lia].
    apply (Z.lt_le_trans _ _ _ Hhi). apply Z.pow_le_mono_r; lia.
Qed.

(** The test [abs(value) < 0.01] on a finite binary64 number decides
    whether its magnitude is below 1/100. *)
Lemma float_below_hundredth_iff s m e :
  bounded prec emax m e = true ->
  float_lt (SFabs (S754_finite s m e)) float_hundredth = true <-> 100 * Zpos m < 2 ^ (- e).
Proof.
  intros Hb. destruct (binary64_mantissa m e Hb) as [Hhi Hlo]. clear Hb.
  unfold float_lt, SFltb, float_hundredth. cbn [SFabs SFcompare].
  destruct (Z.compare_spec e (-59)) as [->|Hlt|Hgt].
  - clear Hhi Hlo. rewrite Pos.compare_cont_spec.
    change (2 ^ (- -59)) with 576460752303423488.
    destruct (Pos.compare_spec m 5764607523034235) as [E|H|H]; cbn [Pos.switch_Eq].
    + subst m. split; [discriminate|]. intros H. exfalso. revert H. apply Z.le_ngt. discriminate.
    + apply Pos2Z.pos_lt_pos in H. split; [intros _; lia|reflexivity].
    + apply Pos2Z.pos_lt_pos in H. split; [discriminate|]. intros H'. exfalso. lia.
  - split; [intros _|reflexivity].
    assert (2 ^ 60 <= 2 ^ (- e)) as Hp by (apply Z.pow_le_mono_r; lia).
    change (2 ^ 60) with 1152921504606846976 in Hp.
    change (2 ^ 53) with 9007199254740992 in Hhi.
    revert Hp. generalize (2 ^ (- e)). intros p Hp. lia.
  - split; [discriminate|]. intros H. exfalso.
    specialize (Hlo ltac:(lia)).
    assert (2 ^ (- e) <= 2 ^ 58) as Hp.
    { destruct (Z.le_gt_cases 0 (- e)); [apply Z.pow_le_mono_r; lia|].
      rewrite Z.pow_neg_r by lia. apply Z.pow_nonneg. lia. }
    change (2 ^ 58) with 288230376151711744 in Hp.
    change (2 ^ 52) with 4503599627370496 in Hlo.
    revert H Hp. generalize (2 ^ (- e)). intros p H Hp. lia.
Qed.

Lemma float_at_least_hundredth x :
  is_binary64 x = true -> at_least_hundredth x ->
  float_lt (SFabs x) float_hundredth = false.
Proof.
  destruct x as [| | |s m e]; cbn [at_least_hundredth]; try contradiction.
  intros Hb H. destruct (float_lt _ _) eqn:E; [|reflexivity].
  apply (float_below_hundredth_iff s m e Hb) in E. lia.
Qed.




End Threshold.

(** ** Amounts given as text *)

Section AmountText.
Import pystr pynum pydecimal.

















Lemma lt_hundredth_zero e : lt_hundredth 0 e = true.
Proof.
  unfold lt_hundredth. destruct (-2 <=? e) eqn:E; [reflexivity|].
  apply Z.leb_gt in E. apply Z.ltb_lt. apply Z.pow_pos_nonneg; lia.
Qed.

(** On a number that fits the context, [abs] rounds nothing away and
    the test is the exact comparison with 1/100. *)
Lemma abs_lt_hundredth_exact neg c e :
  0 <= c -> ndigits c <= ctx_prec -> Etiny <= e -> e + ndigits c - ctx_prec <= Etop ->
  abs_lt_hundredth (DFinite neg c e) = Ok (lt_hundredth c e).
Proof.
  intros Hc Hn Hlo Hhi. cbn [abs_lt_hundredth]. unfold fix_context.
  destruct (Z.eqb_spec c 0) as [->|_]; [now rewrite !lt_hundredth_zero|].
  destruct (Z.ltb_spec Etop (ndigits c + e - ctx_prec)); [lia|].
  destruct (Z.ltb_spec e (Z.max (ndigits c + e - ctx_prec) Etiny)); [lia|reflexivity].
Qed.






End AmountText.

(** ** What [format_amount] displays *)

Section AmountFormatting.
Import pynum pydecimal spec.
Import show_asset (amount, ANone, AStr, AInt, AFloat).






End AmountFormatting.







(** The test [abs(decimal_value) < Decimal('0.01')] rounds to the 28
    digits of the context before it compares: a string of 31 digits
    just below 0.01 is not found small and comes back unchanged. *)
Lemma long_text_below_hundredth_is_kept :
  show_asset.format_amount (show_asset.AStr "0.0099999999999999999999999999999") "USD"
  = "0.0099999999999999999999999999999".
Proof. vm_compute. reflexivity. Qed.

(** ** The order history of show_his.py *)

Section OrderHistory.
Import pynum spec show_his pages.

Lemma order_page_full r m p o page_size acc :
  show_pos.json_body r = Ok (JObj m) ->
  m !! "data" = Some (JArr p) ->
  page_size <= Z.of_nat (length p) ->
  last p = Some (JObj o) ->
  orders_page r page_size acc = Ok ((acc ++ p)%list, Some (client_order_id o)).
Proof.
  intros Hb Hd Hn Hl. unfold orders_page. rewrite Hb. cbn. rewrite Hd.
  destruct p as [|x p']; [discriminate|]. cbn [pyjson.truthy]. cbn.
  cbn [length] in Hn.
  destruct (Z.ltb_spec (Z.of_nat (S (length p'))) page_size) as [H|_]; [lia|].
  cbn in Hl. rewrite Hl. reflexivity.
Qed.

Lemma order_page_last r m p page_size acc :
  show_pos.json_body r = Ok (JObj m) ->
  match m !! "data" with Some v => v | None => JArr [] end = JArr p ->
  p = [] \/ Z.of_nat (length p) < page_size ->
  orders_page r page_size acc = Ok ((acc ++ p)%list, None).
Proof.
  intros Hb Hd Hn. unfold orders_page. rewrite Hb. cbn. rewrite Hd.
  destruct p as [|x p']; cbn [pyjson.truthy].
  - now rewrite app_nil_r.
  - destruct Hn as [Hn|Hn]; [discriminate|]. cbn. cbn [length] in Hn.
    destruct (Z.ltb_spec (Z.of_nat (S (length p'))) page_size) as [_|H]; [reflexivity|lia].
Qed.

Lemma full_order_pages_later api page_size n c got n' c' :
  full_order_pages api page_size n c got n' c' -> (n <= n')%nat.
Proof. induction 1; lia. Qed.

(** The loop runs through full pages, adding each to the orders. *)
Lemma orders_loop_after_pages api page_size n c got n' c' :
  full_order_pages api page_size n c got n' c' ->
  forall acc fuel,
    orders_loop api page_size (n' - n + fuel) n acc c
    = orders_loop api page_size fuel n' (acc ++ got)%list c'.
Proof.
  induction 1 as [n c|n c r m p o got n' c' Ha Hs Hb Hd Hn Hl Hrest IH]; intros acc fuel.
  - now rewrite Nat.sub_diag, app_nil_r.
  - pose proof (full_order_pages_later _ _ _ _ _ _ _ Hrest) as Hlt.
    replace (n' - n + fuel)%nat with (S (n' - S n + fuel)) by lia.
    cbn [orders_loop]. rewrite Ha, Hs, Z.eqb_refl.
    rewrite (order_page_full r m p o page_size acc Hb Hd Hn Hl).
    rewrite IH. now rewrite app_assoc.
Qed.

(** X1.  [get_today_orders] returns the orders of all the pages it
    was served, in order: when the requests before request [k] answer
    with full pages and request [k] answers with a page that is empty
    or shorter than [page_size], it makes no further request, prints
    nothing and returns the full pages followed by the last one. *)
Theorem today_orders_are_all_pages account_id api page_size k c got r m p fuel :
  pyjson.truthy account_id = true ->
  full_order_pages api page_size 0 JNull got k c ->
  api k page_size c = Ok r ->
  show_pos.status_code r = 200 ->
  show_pos.json_body r = Ok (JObj m) ->
  match m !! "data" with Some v => v | None => JArr [] end = JArr p ->
  p = [] \/ Z.of_nat (length p) < page_size ->
  get_today_orders account_id api page_size (k + S fuel) = Some ([], Some (got ++ p)%list).
Proof.
  intros Hid Hpages Ha Hs Hb Hd Hn. unfold get_today_orders. rewrite Hid.
  pose proof (orders_loop_after_pages _ _ _ _ _ _ _ Hpages [] (S fuel)) as E.
  rewrite Nat.sub_0_r in E. rewrite E. cbn [orders_loop app].
  rewrite Ha, Hs, Z.eqb_refl.
  now rewrite (order_page_last r m p page_size got Hb Hd Hn).
Qed.

(** X2.  A failure on any page makes [get_today_orders] return [None],
    whatever the pages before it brought: a status other than 200, an
    exception raised by the request, and a body that [response.json()]
    cannot decode all discard the orders gathered so far, and one line
    is printed. *)
Theorem today_orders_failure_discards_pages account_id api page_size k c got fuel :
  pyjson.truthy account_id = true ->
  full_order_pages api page_size 0 JNull got k c ->
  (forall r,
      api k page_size c = Ok r -> show_pos.status_code r <> 200 ->
      get_today_orders account_id api page_size (k + S fuel)
      = Some ([ Line ("✗ 注文履歴取得エラー: ステータスコード "
                      +:+ str_int (show_pos.status_code r)) ], None)) /\
  (forall e,
      api k page_size c = Raise e ->
      get_today_orders account_id api page_size (k + S fuel)
      = Some ([ ErrorLine "✗ 注文履歴取得エラー: " e ], None)) /\
  (forall r e,
      api k page_size c = Ok r -> show_pos.status_code r = 200 ->
      show_pos.json_body r = Raise e ->
      get_today_orders account_id api page_size (k + S fuel)
      = Some ([ ErrorLine "✗ 注文履歴取得エラー: " e ], None)).
Proof.
  intros Hid Hpages.
  assert (get_today_orders account_id api page_size (k + S fuel)
          = orders_loop api page_size (S fuel) k got c) as E.
  { unfold get_today_orders. rewrite Hid.
    pose proof (orders_loop_after_pages _ _ _ _ _ _ _ Hpages [] (S fuel)) as E.
    now rewrite Nat.sub_0_r in E. }
  rewrite E. cbn [orders_loop]. split; [|split].
  - intros r Ha Hs. rewrite Ha.
    now destruct (Z.eqb_spec (show_pos.status_code r) 200).
  - intros e Ha. now rewrite Ha.
  - intros r e Ha Hs Hb. rewrite Ha, Hs, Z.eqb_refl.
    unfold orders_page. now rewrite Hb.
Qed.

(** X3.  [format_currency_amount] on a finite float always returns a
    string: an integer with thousands separators and no decimal places
    for JPY, a number with thousands separators and exactly two
    decimal places for any other currency.  On an infinity or a NaN
    the JPY branch raises (OverflowError, ValueError), since nothing
    catches what [int(amount)] raises. *)
Theorem order_amount_format_by_currency amount currency :
  (is_finite amount = true ->
   exists s, format_currency_amount amount currency = Ok s /\
             (currency = "JPY" -> no_decimal_places s) /\
             (currency <> "JPY" -> two_decimal_places s)) /\
  (is_finite amount = false ->
   format_currency_amount amount "JPY"
   = Raise (match amount with S754_nan => ValueError | _ => OverflowError end)).
Proof.
  split.
  - intros Hf. unfold format_currency_amount.
    destruct (String.eqb_spec currency "JPY") as [Hc|Hc].
    + destruct amount as [s| | |s m e]; try discriminate;
        (eexists; split; [reflexivity|]); (split; [intros _|congruence]);
        apply format_comma_int_shape.
    + destruct amount as [s| | |s m e]; try discriminate;
        (eexists; split; [reflexivity|]); (split; [congruence|intros _]);
        apply fixed2_shape.
  - intros Hf. destruct amount as [s|s| |s m e]; try discriminate; reflexivity.
Qed.

(** X4.  On a float of magnitude at least 0.01 the formatter of the
    order history and [format_amount] of show_asset.py display the
    same string, for every currency. *)
Theorem order_amount_format_agrees_with_asset_format x currency :
  is_binary64 x = true -> at_least_hundredth x ->
  format_currency_amount x currency
  = Ok (show_asset.format_amount (show_asset.AFloat x) currency).
Proof.
  intros Hb Hx. unfold format_currency_amount. cbn [show_asset.format_amount].
  rewrite (float_at_least_hundredth x Hb Hx).
  destruct x as [| | |s m e]; cbn [at_least_hundredth] in Hx; try contradiction.
  now destruct (String.eqb currency "JPY").
Qed.

Lemma translate_once (table : gmap string string) :
  map_Forall (fun _ label => table !! label = None) table ->
  forall code, translate table (translate table code) = translate table code.
Proof.
  intros H code. unfold translate at 2 3.
  destruct (table !! code) as [label|] eqn:E.
  - unfold translate. now rewrite (H code label E).
  - unfold translate. now rewrite E.
Qed.

Lemma translate_distinct (table : gmap string string) :
  map_Forall (fun c1 l1 => map_Forall (fun c2 l2 => l1 = l2 -> c1 = c2) table) table ->
  forall c1 c2, is_Some (table !! c1) -> is_Some (table !! c2) ->
    translate table c1 = translate table c2 -> c1 = c2.
Proof.
  intros H c1 c2 [l1 E1] [l2 E2]. unfold translate. rewrite E1, E2.
  exact (H c1 l1 E1 c2 l2 E2).
Qed.

(** X5.  The three translations of order codes into Japanese labels
    (status, side, type) return a code they do not know unchanged,
    give distinct labels to distinct known codes, and translating a
    label again changes nothing. *)
Theorem order_labels_are_stable_and_distinct :
  (forall code, status_map !! code = None -> format_order_status code = code) /\
  (forall code, format_order_status (format_order_status code) = format_order_status code) /\
  (forall code, format_order_side (format_order_side code) = format_order_side code) /\
  (forall code, format_order_type (format_order_type code) = format_order_type code) /\
  (forall c1 c2, is_Some (status_map !! c1) -> is_Some (status_map !! c2) ->
     format_order_status c1 = format_order_status c2 -> c1 = c2) /\
  (forall c1 c2, is_Some (side_map !! c1) -> is_Some (side_map !! c2) ->
     format_order_side c1 = format_order_side c2 -> c1 = c2) /\
  (forall c1 c2, is_Some (type_map !! c1) -> is_Some (type_map !! c2) ->
     format_order_type c1 = format_order_type c2 -> c1 = c2).
Proof.
  split; [intros code H; unfold format_order_status, translate; now rewrite H|].
  split; [apply translate_once; apply (bool_decide_unpack _); vm_compute; reflexivity|].
  split; [apply translate_once; apply (bool_decide_unpack _); vm_compute; reflexivity|].
  split; [apply translate_once; apply (bool_decide_unpack _); vm_compute; reflexivity|].
  split; [apply translate_distinct; apply (bool_decide_unpack _); vm_compute; reflexivity|].
  split; [apply translate_distinct; apply (bool_decide_unpack _); vm_compute; reflexivity|].
  apply translate_distinct; apply (bool_decide_unpack _); vm_compute; reflexivity.
Qed.

End OrderHistory.

(** With a page size of 2, a full page and then a page of one order
    give the three orders. *)
Lemma today_orders_witness :
  show_his.get_today_orders (JStr "A1") pages.three_orders 2 2%nat
  = Some ([], Some [pages.order "a"; pages.order "b"; pages.order "c"]).
Proof.
  refine (today_orders_are_all_pages (JStr "A1") pages.three_orders 2 1%nat (JStr "b")
            ([pages.order "a"; pages.order "b"] ++ [])
            (pages.answer 200 (Ok (JObj (<["data" := JArr [pages.order "c"]]> ∅))))
            (<["data" := JArr [pages.order "c"]]> ∅) [pages.order "c"] 0%nat
            eq_refl _ eq_refl eq_refl eq_refl _ _).
  - refine (pages.order_pages_next _ _ 0%nat JNull
              (pages.answer 200 (Ok (JObj (<["data" := JArr [pages.order "a"; pages.order "b"]]> ∅))))
              (<["data" := JArr [pages.order "a"; pages.order "b"]]> ∅)
              [pages.order "a"; pages.order "b"] (pages.order_fields "b") [] 1%nat (JStr "b")
              eq_refl eq_refl eq_refl _ _ eq_refl _).
    + vm_compute. reflexivity.
    + cbn. lia.
    + replace (pages.client_order_id (pages.order_fields "b")) with (JStr "b")
        by (vm_compute; reflexivity).
      apply pages.order_pages_none.
  - vm_compute. reflexivity.
  - right. cbn. lia.
Defined.

(** With a page size of 2, a full page and then status 500 give
    [None]. *)
Lemma today_orders_failure_witness :
  show_his.get_today_orders (JStr "A1") pages.failing_orders 2 2%nat
  = Some ([ Line ("✗ 注文履歴取得エラー: ステータスコード " +:+ pynum.str_int 500) ], None).
Proof.
  refine (proj1 (today_orders_failure_discards_pages (JStr "A1") pages.failing_orders 2 1%nat
                   (JStr "b") ([pages.order "a"; pages.order "b"] ++ []) 0%nat eq_refl _)
            (pages.answer 500 (Raise ValueError)) eq_refl _).
  - refine (pages.order_pages_next _ _ 0%nat JNull
              (pages.answer 200 (Ok (JObj (<["data" := JArr [pages.order "a"; pages.order "b"]]> ∅))))
              (<["data" := JArr [pages.order "a"; pages.order "b"]]> ∅)
              [pages.order "a"; pages.order "b"] (pages.order_fields "b") [] 1%nat (JStr "b")
              eq_refl eq_refl eq_refl _ _ eq_refl _).
    + vm_compute. reflexivity.
    + cbn. lia.
    + replace (pages.client_order_id (pages.order_fields "b")) with (JStr "b")
        by (vm_compute; reflexivity).
      apply pages.order_pages_none.
  - discriminate.
Defined.

(** The float 1234.56 in USD. *)
Lemma order_amount_format_witness :
  exists s, show_his.format_currency_amount sample.f1234_56 "USD" = Ok s /\
            ("USD" = "JPY" -> spec.no_decimal_places s) /\
            ("USD" <> "JPY" -> spec.two_decimal_places s).
Proof. exact (proj1 (order_amount_format_by_currency sample.f1234_56 "USD") eq_refl). Defined.

(** The float 1234.5 in JPY. *)
Lemma order_amount_agreement_witness :
  show_his.format_currency_amount sample.f1234_5 "JPY"
  = Ok (show_asset.format_amount (show_asset.AFloat sample.f1234_5) "JPY").
Proof.
  apply order_amount_format_agrees_with_asset_format.
  - vm_compute. reflexivity.
  - vm_compute. discriminate.
Defined.

(** Translating the label of Filled again gives that label. *)
Lemma order_labels_witness :
  show_his.format_order_status (show_his.format_order_status "Filled")
  = show_his.format_order_status "Filled".
Proof. exact (proj1 (proj2 order_labels_are_stable_and_distinct) "Filled"). Defined.

(** ** More on the credential file *)

Section CredentialFile.
Import pystr show_asset.



Lemma load_line_never_unsets env line env' key :
  load_line env line = Ok env' ->
  (is_Some (env !! key) -> is_Some (env' !! key)) /\
  (env' !! key = Some "" -> env !! key = Some "").
Proof.
  unfold load_line.
  destruct (parse_line line) as [[k v]|]; [|intros [= <-]; now split].
  destruct (nonempty k && nonempty v && not_getenv env k) eqn:G;
    [|intros [= <-]; now split].
  apply andb_prop in G as [G _]. apply andb_prop in G as [_ G]. apply nonempty_iff in G.
  unfold setenv. destruct (_ || _); [discriminate|]. intros [= <-].
  destruct (decide (k = key)) as [->|Hne].
  - rewrite lookup_insert_eq. split; [intros _; eauto|]. intros [= E]. contradiction.
  - rewrite lookup_insert_ne by exact Hne. now split.
Qed.

(** X7.  The loader only ever adds to the environment: a variable
    that is set stays set, whatever the file says and also when a line
    makes the loader raise, and a variable is never given the empty
    string as its value. *)
Theorem env_file_never_unsets env_file env key :
  (is_Some (env !! key) -> is_Some ((load_env_file env_file env).1 !! key)) /\
  ((load_env_file env_file env).1 !! key = Some "" -> env !! key = Some "").
Proof.
  destruct env_file as [lines|]; cbn [load_env_file]; [|now split].
  revert env. induction lines as [|line lines IH]; intros env; cbn [load_lines].
  - now split.
  - destruct (load_line env line) as [env'|e] eqn:L; [|now split].
    destruct (load_line_never_unsets _ _ _ key L) as [H1 H2].
    destruct (IH env') as [H3 H4]. split; auto.
Qed.




End CredentialFile.


(** The variable K, set to the empty string, is still set after a
    file that has a line for it. *)
Lemma env_file_never_unsets_witness :
  is_Some ((show_asset.load_env_file (Some ["K=v"]) (<["K" := ""]> ∅)).1 !! "K").
Proof.
  apply (proj1 (env_file_never_unsets (Some ["K=v"]) (<["K" := ""]> ∅) "K")).
  exists "". vm_compute. reflexivity.
Defined.


(** ** Quoted values in the credential file *)

Section QuotedValues.
Import pystr show_asset.


















End QuotedValues.


(** ** What reaches the report file *)

Section ReportFile.
Import pyio tee.

Lemma copying_bind {A B} (m : M A) (f : A -> M B) :
  keeps_copying m -> (forall a, keeps_copying (f a)) -> keeps_copying (m ≫= f).
Proof.
  intros Hm Hf header w Hw. rewrite bind_run. specialize (Hm header w Hw).
  destruct (m w) as [[a|e] w1]; cbn [snd] in *; [|exact Hm].
  exact (Hf a header w1 Hm).
Qed.

Lemma copying_ret {A} (a : A) : keeps_copying (mret a : M A).
Proof. now intros header w Hw. Qed.

Lemma copying_raise {A} e : keeps_copying (raise e : M A).
Proof. now intros header w Hw. Qed.

Lemma copying_lift {A} (r : result A) : keeps_copying (lift r).
Proof. now intros header w Hw. Qed.

(** A write while [sys.stdout] is the logger reaches the terminal and
    the file, or neither. *)
Lemma copying_stdout_write m : keeps_copying (stdout_write m).
Proof.
  intros header w (Hs & Ho & Hc). unfold stdout_write. rewrite Hs.
  unfold logger_write. rewrite bind_run. unfold terminal_write.
  destruct (terminal_budget w) as [[|n]|]; cbn [snd]; try now repeat split.
  - unfold log_write. cbn [log_open]. rewrite Ho. cbn [snd].
    repeat split; try assumption. unfold copied in *. cbn [log_out terminal_out].
    now rewrite Hc, app_assoc.
  - unfold log_write. cbn [log_open]. rewrite Ho. cbn [snd].
    repeat split; try assumption. unfold copied in *. cbn [log_out terminal_out].
    now rewrite Hc, app_assoc.
Qed.

Lemma copying_print m : keeps_copying (print m).
Proof. apply copying_bind; [|intros _]; apply copying_stdout_write. Qed.

Lemma copying_perform script : keeps_copying (perform script).
Proof.
  induction script as [|[m| |e] rest IH]; cbn [perform].
  - apply copying_ret.
  - apply copying_bind; [apply copying_print|now intros _].
  - apply copying_bind; [apply copying_stdout_write|now intros _].
  - apply copying_raise.
Qed.

Lemma copying_main_try display now env_file env :
  keeps_copying (show_asset.main_try display now env_file env).
Proof.
  unfold show_asset.main_try.
  repeat (apply copying_bind; [apply copying_print|intros _]).
  destruct (show_asset.load_env_file env_file env) as [env' loaded].
  apply copying_bind; [apply copying_lift|intros _].
  destruct (show_asset.getenv_truthy env' "WEBULL_APP_KEY") as [k|];
    [destruct (show_asset.getenv_truthy env' "WEBULL_APP_SECRET") as [s|]|];
    try apply copying_perform.
  apply copying_bind; [apply copying_perform|intros _].
  apply copying_bind; [|intros _]; apply copying_print.
Qed.

(** X10.  Whatever [main] of show_asset.py prints while the report is
    being made reaches the terminal and the report file alike, also
    when the terminal or the callee raises halfway: at the end the
    terminal has received exactly the content of the file, followed by
    the closing message that names the file (or the part of it the
    terminal accepted). *)
Theorem asset_report_file_copies_terminal display output now env_file env budget writable :
  let w' := (show_asset.main display output now env_file env (start budget writable)).2 in
  let closing := pystr.NL +:+ "✅ 出力ファイルが作成されました: " +:+ output in
  exists tail,
    terminal_out w' = (log_out w' ++ tail)%list /\
    (tail = [] \/ tail = [closing] \/ tail = [closing; pystr.NL]).
Proof.
  cbv zeta. unfold show_asset.main. rewrite bind_run. unfold open_logger.
  destruct writable; cbn [start disk_writable sys_stdout];
    [|exists []; split; [reflexivity|now left]].
  rewrite bind_run. unfold set_stdout. cbv beta iota.
  cbn [sys_stdout logger_terminal log_open terminal_out log_out
       terminal_budget disk_writable].
  unfold try_finally.
  match goal with
  | |- context [show_asset.main_try ?d ?n ?f ?e ?w0] =>
      pose proof (keeps_main_try d n f e w0) as (_ & H2 & _);
      assert (copying [] (show_asset.main_try d n f e w0).2) as (_ & _ & Hc)
        by (apply copying_main_try; now repeat split);
      destruct (show_asset.main_try d n f e w0) as [r w1]
  end.
  cbn [snd logger_terminal] in H2, Hc. unfold copied in Hc. cbn [app] in Hc.
  unfold show_asset.main_finally.
  rewrite bind_run. unfold restore_stdout, set_stdout. cbv beta iota.
  rewrite bind_run. unfold close_log. cbv beta iota.
  cbn [sys_stdout logger_terminal log_open terminal_out log_out
       terminal_budget disk_writable].
  rewrite H2. unfold print. rewrite bind_run. unfold stdout_write at 1.
  cbn [sys_stdout]. unfold terminal_write at 1. cbn [terminal_budget terminal_out log_out].
  destruct (terminal_budget w1) as [[|[|n]]|]; cbn [snd terminal_out log_out].
  - exists []. split; [now rewrite app_nil_r|now left].
  - unfold stdout_write, terminal_write.
    cbn [sys_stdout terminal_budget fmap option_fmap option_map Nat.pred snd
         terminal_out log_out].
    eexists. split; [rewrite Hc; reflexivity|right; now left].
  - unfold stdout_write, terminal_write.
    cbn [sys_stdout terminal_budget fmap option_fmap option_map Nat.pred snd
         terminal_out log_out].
    eexists. split; [rewrite Hc, <- app_assoc; reflexivity|right; now right].
  - unfold stdout_write, terminal_write.
    cbn [sys_stdout terminal_budget fmap option_fmap option_map Nat.pred snd
         terminal_out log_out].
    eexists. split; [rewrite Hc, <- app_assoc; reflexivity|right; now right].
Qed.

Lemma ends_copied_bind {A B} (m : M A) (k : M B) :
  keeps_copying m -> ends_copied k -> ends_copied (m ≫= fun _ => k).
Proof.
  intros Hm Hk header w Hw. rewrite bind_run. specialize (Hm header w Hw).
  destruct (m w) as [[a|e] w1]; cbn [snd] in *.
  - exact (Hk header w1 Hm).
  - now destruct Hm as (_ & _ & Hm).
Qed.

Lemma ends_copied_close : ends_copied show_symbol.close.
Proof. now intros header w (_ & _ & Hc). Qed.

Lemma symbol_body_ends_copied opening selected findings saved_as :
  ends_copied (perform opening ;; perform selected ;; perform findings ;;
               print saved_as ;; show_symbol.close).
Proof.
  repeat (apply ends_copied_bind; [first [apply copying_perform|apply copying_print]|]).
  apply ends_copied_close.
Qed.

(** X11.  The report file of show_symbol_us.py and show_symbol_jp.py
    holds the three header lines the logger writes when it is created
    and then exactly what the terminal received, on every way out of
    [main]: the normal end and any exception raised while printing. *)
Theorem symbol_report_file_copies_terminal
    title opening missing_key key_found findings now have_keys saved_as budget :
  let w' := (show_symbol.main title opening missing_key key_found findings
               now have_keys saved_as (start budget true)).2 in
  log_out w'
  = ([ "# " +:+ title +:+ pystr.NL +:+ pystr.NL;
       "実行日時: " +:+ now +:+ pystr.NL +:+ pystr.NL;
       "---" +:+ pystr.NL +:+ pystr.NL ] ++ terminal_out w')%list.
Proof.
  cbv zeta. unfold show_symbol.main.
  rewrite bind_run, (symbol_logger_created title now budget). cbv beta iota.
  rewrite bind_run. unfold set_stdout at 1. cbv beta iota.
  cbn [sys_stdout logger_terminal log_open terminal_out log_out terminal_budget
       disk_writable].
  refine (symbol_body_ends_copied opening (if have_keys then key_found else missing_key)
            findings saved_as _ _ _).
  repeat split.
Qed.

End ReportFile.

(** ** All the pages of positions *)

Section PositionPages.
Import pyjson spec show_pos pages.

Lemma position_page_full r m hs h more acc :
  json_body r = Ok (JObj m) ->
  m !! "holdings" = Some (JArr hs) ->
  Forall (fun x => exists fields, x = JObj fields) hs ->
  m !! "has_next" = Some more -> truthy more = true ->
  last hs = Some (JObj h) ->
  page r acc
  = Ok ((acc ++ filter (fun x => pos_keeps x = true) hs)%list, Some (instrument_id h)).
Proof.
  intros Hb Hh Hd Hn Ht Hl. unfold page. rewrite Hb. cbn. rewrite Hh. cbn.
  rewrite (filter_holdings_is_filter hs acc Hd). cbn. rewrite Hn, Ht.
  destruct hs as [|x hs']; [discriminate|]. cbn [truthy andb]. cbn.
  cbn in Hl. rewrite Hl. reflexivity.
Qed.


Lemma position_pages_later api n c got n' c' :
  position_pages api n c got n' c' -> (n <= n')%nat.
Proof. induction 1; lia. Qed.

Lemma paging_after_position_pages api n c got n' c' :
  position_pages api n c got n' c' ->
  forall acc fuel,
    paging api (n' - n + fuel) n acc c
    = paging api fuel n' (acc ++ filter (fun x => pos_keeps x = true) got)%list c'.
Proof.
  induction 1 as [n c|n c m hs h more got n' c' Hs Hb Hh Hd Hn Ht Hl Hrest IH];
    intros acc fuel.
  - now rewrite Nat.sub_diag, filter_nil, app_nil_r.
  - pose proof (position_pages_later _ _ _ _ _ _ Hrest) as Hlt.
    replace (n' - n + fuel)%nat with (S (n' - S n + fuel)) by lia.
    cbn [paging]. fold (request_after c). rewrite Hs, Z.eqb_refl.
    rewrite (position_page_full _ m hs h more acc Hb Hh Hd Hn Ht Hl).
    rewrite IH. now rewrite filter_app, app_assoc.
Qed.


(** X13.  An exception on a later page costs the earlier pages: when
    the body of request [k] cannot be decoded, or one of its holdings
    is no dict, [get_positions] prints the exception and returns the
    empty list, not the positions gathered so far (a status other
    than 200 keeps them). *)
Theorem positions_exception_discards_pages api k c got fuel :
  position_pages api 0 JNull got k c ->
  status_code (api k (request_after c)) = 200 ->
  (forall e,
      json_body (api k (request_after c)) = Raise e ->
      get_positions api (k + S fuel)
      = Some ([ ErrorLine "エラー: ポジション情報の取得中に例外が発生しました - " e ], [])) /\
  (forall m before x after,
      json_body (api k (request_after c)) = Ok (JObj m) ->
      m !! "holdings" = Some (JArr (before ++ x :: after)) ->
      Forall (fun y => exists fields, y = JObj fields) before ->
      (forall fields, x <> JObj fields) ->
      get_positions api (k + S fuel)
      = Some ([ ErrorLine "エラー: ポジション情報の取得中に例外が発生しました - "
                  AttributeError ], [])).
Proof.
  intros Hpages Hs.
  assert (forall e,
             page (api k (request_after c))
               ([] ++ filter (fun x => pos_keeps x = true) got)%list = Raise e ->
             get_positions api (k + S fuel)
             = Some ([ ErrorLine "エラー: ポジション情報の取得中に例外が発生しました - " e ], []))
    as G.
  { intros e Hp. unfold get_positions.
    pose proof (paging_after_position_pages _ _ _ _ _ _ Hpages [] (S fuel)) as E.
    rewrite Nat.sub_0_r in E. rewrite E. cbn [paging]. fold (request_after c).
    now rewrite Hs, Z.eqb_refl, Hp. }
  split.
  - intros e Hb. apply G. unfold page. now rewrite Hb.
  - intros m before x after Hb Hh Hd Hx. apply G. unfold page. rewrite Hb. cbn.
    rewrite Hh. cbn.
    assert (forall acc, filter_holdings (before ++ x :: after) acc = Raise AttributeError)
      as ->; [|reflexivity].
    clear -Hd Hx. induction Hd as [|y before [fields ->] _ IH]; intros acc.
    + cbn. destruct x; try reflexivity. now destruct (Hx fields).
    + rewrite <- app_comm_cons, filter_holdings_step. apply IH.
Qed.

End PositionPages.


(** The second page cannot be decoded: the held position of the first
    page is lost. *)
Lemma positions_exception_witness :
  show_pos.get_positions pages.broken_second_page 2%nat
  = Some ([ ErrorLine "エラー: ポジション情報の取得中に例外が発生しました - " ValueError ], []).
Proof.
  refine (proj1 (positions_exception_discards_pages pages.broken_second_page 1%nat
                   (JStr "B2") ([pages.holding "A1" "10"; pages.holding "B2" "0"] ++ [])
                   0%nat _ eq_refl) ValueError eq_refl).
  refine (pages.position_pages_next pages.broken_second_page 0%nat JNull
            (<["holdings" := JArr [pages.holding "A1" "10"; pages.holding "B2" "0"]]>
               (<["has_next" := JBool true]> ∅))
            [pages.holding "A1" "10"; pages.holding "B2" "0"]
            (pages.holding_fields "B2" "0") (JBool true) [] 1%nat (JStr "B2")
            eq_refl eq_refl _ _ _ eq_refl eq_refl _).
  - vm_compute. reflexivity.
  - repeat apply Forall_cons_2; [eexists; reflexivity|eexists; reflexivity|apply Forall_nil_2].
  - vm_compute. reflexivity.
  - replace (pages.instrument_id (pages.holding_fields "B2" "0")) with (JStr "B2")
      by (vm_compute; reflexivity).
    apply pages.position_pages_none.
Defined.

(** ** What is shown of a key and of a name *)

Section Shown.
Context {char : Type}.
Import show_asset_v1 show_pos.

(** X14.  The line that confirms the API key shows at most twelve of
    its characters: the first eight and, for a key of more than
    twelve characters, the last four, the characters in between being
    left out.  A key of up to eight characters is shown whole, and a
    key of nine to twelve characters without its end. *)
Theorem key_preview_shows_at_most_twelve (app_key : list char) :
  (length (key_head app_key) <= 8)%nat /\
  (length (key_tail app_key) <= 4)%nat /\
  ((length app_key <= 8)%nat -> key_head app_key = app_key /\ key_tail app_key = []) /\
  ((8 < length app_key <= 12)%nat ->
   key_tail app_key = [] /\
   exists hidden,
     app_key = (key_head app_key ++ hidden)%list /\
     length hidden = (length app_key - 8)%nat) /\
  ((12 < length app_key)%nat ->
   exists hidden,
     app_key = (key_head app_key ++ hidden ++ key_tail app_key)%list /\
     length hidden = (length app_key - 12)%nat).
Proof.
  unfold key_head, key_tail. split; [rewrite length_take; lia|].
  split.
  { destruct (12 <? length app_key)%nat; [rewrite length_drop|cbn]; lia. }
  split.
  { intros H. split; [now apply take_ge|].
    destruct (Nat.ltb_spec 12 (length app_key)); [lia|reflexivity]. }
  split.
  { intros H. destruct (Nat.ltb_spec 12 (length app_key)); [lia|].
    split; [reflexivity|]. exists (drop 8 app_key).
    split; [now rewrite take_drop|rewrite length_drop; lia]. }
  intros H. destruct (Nat.ltb_spec 12 (length app_key)); [|lia].
  exists (take (length app_key - 12) (drop 8 app_key)). split.
  - rewrite <- (take_drop 8 app_key) at 1. f_equal.
    rewrite <- (take_drop (length app_key - 12) (drop 8 app_key)) at 1. f_equal.
    rewrite drop_drop. f_equal. lia.
  - rewrite length_take, length_drop. lia.
Qed.

(** X15.  The preview of a key of more than twelve characters does
    not depend on the characters it leaves out: two keys with the
    same first eight and last four characters are shown alike. *)
Theorem key_preview_hides_the_middle (first middle1 middle2 last4 : list char) :
  length first = 8%nat -> length last4 = 4%nat ->
  middle1 <> [] -> middle2 <> [] ->
  key_head (first ++ middle1 ++ last4) = key_head (first ++ middle2 ++ last4) /\
  key_tail (first ++ middle1 ++ last4) = key_tail (first ++ middle2 ++ last4) /\
  key_head (first ++ middle1 ++ last4) = first /\
  key_tail (first ++ middle1 ++ last4) = last4.
Proof.
  intros Hf Hl H1 H2.
  assert (forall middle, middle <> [] ->
            key_head (first ++ middle ++ last4) = first /\
            key_tail (first ++ middle ++ last4) = last4) as G.
  { intros middle Hm. unfold key_head, key_tail. split.
    - rewrite take_app_le by lia. apply take_ge. lia.
    - assert (0 < length middle)%nat by (destruct middle; [contradiction|cbn; lia]).
      rewrite !length_app.
      destruct (Nat.ltb_spec 12 (length first + (length middle + length last4))); [|lia].
      rewrite drop_app_ge by lia. rewrite drop_app_ge by lia.
      apply drop_0' || (replace (_ - _ - _)%nat with 0%nat by lia; reflexivity). }
  destruct (G middle1 H1) as [A B]. destruct (G middle2 H2) as [C D].
  repeat split; congruence.
Qed.

(** X16.  A name longer than 28 characters is cut to its first 27
    and three dots, so that what is printed never exceeds the 30
    columns of the table; a shorter name is printed as it is, and
    cutting a name that was cut changes nothing. *)
Theorem shortened_name_fits_its_column (dot : char) (name : list char) :
  (length (shorten_name dot name) <= 30)%nat /\
  ((length name <= 28)%nat -> shorten_name dot name = name) /\
  ((28 < length name)%nat ->
   shorten_name dot name = (take 27 name ++ [dot; dot; dot])%list /\
   length (shorten_name dot name) = 30%nat) /\
  shorten_name dot (shorten_name dot name) = shorten_name dot name.
Proof.
  destruct (Nat.ltb_spec 28 (length name)) as [H|H].
  - assert (shorten_name dot name = (take 27 name ++ [dot; dot; dot])%list) as E
      by (unfold shorten_name; destruct (Nat.ltb_spec 28 (length name)); [reflexivity|lia]).
    assert (length (take 27 name ++ [dot; dot; dot]) = 30%nat) as L
      by (rewrite length_app, length_take; cbn [length]; lia).
    rewrite !E, L. split; [lia|]. split; [lia|]. split; [now split|].
    unfold shorten_name. rewrite L. cbn [Nat.ltb Nat.leb].
    rewrite take_app_ge by (rewrite length_take; lia).
    rewrite length_take. replace (27 - 27 `min` length name)%nat with 0%nat by lia.
    cbn [take]. now rewrite app_nil_r.
  - assert (shorten_name dot name = name) as E
      by (unfold shorten_name; destruct (Nat.ltb_spec 28 (length name)); [lia|reflexivity]).
    rewrite !E. split; [lia|]. split; [reflexivity|]. split; [lia|reflexivity].
Qed.

End Shown.

(** A key of sixteen characters: four of them are left out. *)
Lemma key_preview_witness :
  exists hidden,
    list_ascii_of_string "0123456789abcdef"
    = (show_asset_v1.key_head (list_ascii_of_string "0123456789abcdef") ++ hidden ++
       show_asset_v1.key_tail (list_ascii_of_string "0123456789abcdef"))%list /\
    length hidden = (length (list_ascii_of_string "0123456789abcdef") - 12)%nat.
Proof.
  apply (key_preview_shows_at_most_twelve (list_ascii_of_string "0123456789abcdef")).
  cbn. lia.
Defined.

(** Two keys that differ in the middle only. *)
Lemma key_preview_middle_witness :
  show_asset_v1.key_head (list_ascii_of_string "01234567" ++ list_ascii_of_string "XY"
                          ++ list_ascii_of_string "cdef")
  = show_asset_v1.key_head (list_ascii_of_string "01234567" ++ list_ascii_of_string "secret"
                            ++ list_ascii_of_string "cdef") /\
  show_asset_v1.key_tail (list_ascii_of_string "01234567" ++ list_ascii_of_string "XY"
                          ++ list_ascii_of_string "cdef")
  = show_asset_v1.key_tail (list_ascii_of_string "01234567" ++ list_ascii_of_string "secret"
                            ++ list_ascii_of_string "cdef").
Proof.
  destruct (key_preview_hides_the_middle
              (list_ascii_of_string "01234567") (list_ascii_of_string "XY")
              (list_ascii_of_string "secret") (list_ascii_of_string "cdef")
              eq_refl eq_refl ltac:(discriminate) ltac:(discriminate)) as (A & B & _).
  now split.
Defined.

(** A name of 29 characters is cut to 30. *)
Lemma shortened_name_witness :
  length (show_pos.shorten_name "."%char
            (list_ascii_of_string "Vanguard Total World Stock ET")) = 30%nat.
Proof.
  apply (shortened_name_fits_its_column "."%char
           (list_ascii_of_string "Vanguard Total World Stock ET")).
  cbn. lia.
Defined.

(** ** [format_currency] of show_pos.py *)

Section PositionAmounts.
Import pystr pynum pydecimal spec show_pos.











End PositionAmounts.




(** ** The normal end of the symbol reports *)

Section NormalEnd.
Import pyio.

Lemma ok_bind {A B} (m : M A) (f : A -> M B) w b w' :
  (m ≫= f) w = (Ok b, w') ->
  exists a w1, m w = (Ok a, w1) /\ f a w1 = (Ok b, w').
Proof.
  rewrite bind_run. destruct (m w) as [[a|e] w1]; [|discriminate].
  intros E. now exists a, w1.
Qed.

(** X20.  When [main] of show_symbol_us.py or show_symbol_jp.py ends
    normally, the report file is closed and [sys.stdout] is the
    terminal again. *)
Theorem symbol_main_normal_end_closes_and_restores
    title opening missing_key key_found findings now have_keys saved_as budget w' :
  show_symbol.main title opening missing_key key_found findings now have_keys saved_as
    (start budget true) = (Ok tt, w') ->
  sys_stdout w' = Terminal /\ log_open w' = false.
Proof.
  unfold show_symbol.main.
  rewrite bind_run, (symbol_logger_created title now budget). cbv beta iota.
  rewrite bind_run. unfold set_stdout at 1. cbv beta iota.
  cbn [sys_stdout logger_terminal log_open terminal_out log_out terminal_budget
       disk_writable].
  intros E.
  apply ok_bind in E as (? & w1 & E1 & E).
  apply ok_bind in E as (? & w2 & E2 & E).
  apply ok_bind in E as (? & w3 & E3 & E).
  apply ok_bind in E as (? & w4 & E4 & E).
  match type of E1 with
  | perform _ ?w0 = _ => pose proof (keeps_perform opening w0) as K1
  end.
  rewrite E1 in K1.
  pose proof (keeps_perform (if have_keys then key_found else missing_key) w1) as K2.
  rewrite E2 in K2.
  pose proof (keeps_perform findings w2) as K3. rewrite E3 in K3.
  pose proof (keeps_print saved_as w3) as K4. rewrite E4 in K4.
  cbn [snd] in K1, K2, K3, K4.
  pose proof (same_handles_trans _ _ _ (same_handles_trans _ _ _
                (same_handles_trans _ _ _ K1 K2) K3) K4) as (_ & Ht & _).
  cbn [logger_terminal] in Ht.
  unfold show_symbol.close in E. rewrite bind_run in E.
  unfold close_log, restore_stdout, set_stdout in E. cbv beta iota in E.
  cbn [logger_terminal] in E. injection E as <-.
  cbn [sys_stdout log_open]. split; [exact Ht|reflexivity].
Qed.

End NormalEnd.

(** The report of show_symbol_us.py on a terminal that takes every
    write. *)
Lemma symbol_main_normal_end_witness :
  pyio.sys_stdout
    (show_symbol_us.main [] "2025-11-19" true "saved" (pyio.start None true)).2
  = pyio.Terminal /\
  pyio.log_open
    (show_symbol_us.main [] "2025-11-19" true "saved" (pyio.start None true)).2
  = false.
Proof.
  destruct (symbol_main_normal_end_closes_and_restores
              "米国株銘柄一覧取得スクリプト実行結果"
              show_symbol_us.opening show_symbol_us.missing_key show_symbol_us.key_found
              [] "2025-11-19" true "saved" None
              (show_symbol_us.main [] "2025-11-19" true "saved" (pyio.start None true)).2)
    as (A & B).
  - vm_compute. reflexivity.
  - now split.
Defined.

(** ** [main] of show_pos.py *)

Section PositionsMain.
Import pyio.

Lemma keeps_file_append m : keeps_handles (show_pos.file_append m).
Proof.
  intros w. unfold show_pos.file_append. destruct (disk_writable w); now repeat split.
Qed.

Lemma keeps_pos_stdout_write m : keeps_handles (show_pos.stdout_write m).
Proof.
  intros w. unfold show_pos.stdout_write. destruct (sys_stdout w).
  - apply keeps_terminal_write.
  - apply (keeps_bind (terminal_write m) (fun _ => show_pos.file_append m));
      [apply keeps_terminal_write|intros _; apply keeps_file_append].
Qed.

Lemma keeps_pos_print m : keeps_handles (show_pos.print m).
Proof. apply keeps_bind; [|intros _]; apply keeps_pos_stdout_write. Qed.

Lemma keeps_pos_perform script : keeps_handles (show_pos.perform script).
Proof.
  induction script as [|[m| |e] rest IH]; cbn [show_pos.perform].
  - apply keeps_ret.
  - apply keeps_bind; [apply keeps_pos_print|now intros _].
  - apply keeps_bind; [apply keeps_pos_stdout_write|now intros _].
  - apply keeps_raise.
Qed.

Lemma keeps_try_except {A} (body : M A) handler :
  keeps_handles body -> (forall e, keeps_handles (handler e)) ->
  keeps_handles (show_pos.try_except body handler).
Proof.
  intros Hb Hh w. unfold show_pos.try_except. specialize (Hb w).
  destruct (body w) as [[a|e] w1]; cbn [snd] in *; [exact Hb|].
  exact (same_handles_trans _ _ _ Hb (Hh e w1)).
Qed.

(** A terminal that takes every write and a disk that can be written. *)
Lemma pos_stdout_write_goes_through m w :
  terminal_budget w = None -> disk_writable w = true ->
  exists w', show_pos.stdout_write m w = (Ok tt, w') /\
             terminal_budget w' = None /\ disk_writable w' = true.
Proof.
  intros Hb Hd. unfold show_pos.stdout_write, show_pos.logger_write.
  destruct (sys_stdout w).
  - unfold terminal_write. rewrite Hb. eexists. now repeat split.
  - rewrite bind_run. unfold terminal_write. rewrite Hb. cbv beta iota.
    unfold show_pos.file_append. cbn [disk_writable]. rewrite Hd.
    eexists. now repeat split.
Qed.

Lemma pos_print_goes_through m w :
  terminal_budget w = None -> disk_writable w = true ->
  exists w', show_pos.print m w = (Ok tt, w') /\
             terminal_budget w' = None /\ disk_writable w' = true.
Proof.
  intros Hb Hd. unfold show_pos.print. rewrite bind_run.
  destruct (pos_stdout_write_goes_through m w Hb Hd) as (w1 & -> & Hb1 & Hd1).
  exact (pos_stdout_write_goes_through _ w1 Hb1 Hd1).
Qed.

Lemma pos_perform_goes_through script : forall w,
  terminal_budget w = None -> disk_writable w = true ->
  exists r w', show_pos.perform script w = (r, w') /\
               terminal_budget w' = None /\ disk_writable w' = true.
Proof.
  induction script as [|[m| |e] rest IH]; intros w Hb Hd; cbn [show_pos.perform].
  - exists (Ok tt), w. now repeat split.
  - rewrite bind_run.
    destruct (pos_print_goes_through m w Hb Hd) as (w1 & -> & Hb1 & Hd1).
    exact (IH w1 Hb1 Hd1).
  - rewrite bind_run.
    destruct (pos_stdout_write_goes_through pystr.NL w Hb Hd) as (w1 & -> & Hb1 & Hd1).
    exact (IH w1 Hb1 Hd1).
  - exists (Raise e), w. now repeat split.
Qed.

Lemma positions_main_run have_keys describe body budget writable :
  exists r w',
    show_pos.main have_keys describe body (start budget writable) = (r, w') /\
    sys_stdout w' = Terminal /\ log_open w' = false /\
    (budget = None -> writable = true -> r = Ok tt).
Proof.
  unfold show_pos.main. destruct have_keys.
  - rewrite bind_run. unfold show_pos.new_logger.
    destruct writable; cbn [start disk_writable sys_stdout];
      [|eexists _, _; split; [reflexivity|]; now repeat split].
    rewrite bind_run. unfold set_stdout at 1. cbv beta iota.
    cbn [start sys_stdout logger_terminal log_open terminal_out log_out
         terminal_budget disk_writable].
    unfold try_finally.
    match goal with
    | |- context [show_pos.try_except ?b ?h ?w0] =>
        pose proof (keeps_try_except b h (keeps_pos_perform body)
                      (fun e => keeps_pos_print _) w0) as (_ & _ & H3);
        assert (budget = None -> (show_pos.try_except b h w0).1 = Ok tt) as Hok;
        [|set (t := show_pos.try_except b h w0) in *]
    end.
    { intros ->. unfold show_pos.try_except.
      match goal with
      | |- context [show_pos.perform body ?w0] =>
          destruct (pos_perform_goes_through body w0 eq_refl eq_refl)
            as ([[]|e] & w1 & -> & Hb1 & Hd1)
      end; [reflexivity|].
      now destruct (pos_print_goes_through
                      (pystr.NL +:+ "エラー: 予期しない例外が発生しました - " +:+ describe e)
                      w1 Hb1 Hd1) as (w2 & -> & _). }
    destruct t as [r w1].
    cbn [snd fst log_open] in H3, Hok. unfold set_stdout.
    eexists _, _. split; [reflexivity|]. cbn [sys_stdout log_open].
    split; [reflexivity|]. split; [exact H3|]. intros Hb _. exact (Hok Hb).
  - match goal with
    | |- context [(?m ≫= ?f) ?w0] =>
        pose proof (keeps_bind m f (keeps_pos_print _) (fun _ => keeps_pos_print _) w0)
          as (H1 & _ & H3)
    end.
    cbn [start sys_stdout log_open] in H1, H3.
    assert (budget = None -> writable = true ->
            ((show_pos.print
                "エラー: WEBULL_APP_KEYまたはWEBULL_APP_SECRETが.envファイルに設定されていません。" ;;
              show_pos.print ".envファイルを確認してください。") (start budget writable)).1
            = Ok tt) as Hok.
    { intros -> ->. rewrite bind_run.
      destruct (pos_print_goes_through
                  "エラー: WEBULL_APP_KEYまたはWEBULL_APP_SECRETが.envファイルに設定されていません。"
                  (start None true) eq_refl eq_refl) as (w1 & -> & Hb1 & Hd1).
      now destruct (pos_print_goes_through ".envファイルを確認してください。" w1 Hb1 Hd1)
        as (w2 & -> & _). }
    match goal with
    | |- context [(?m ≫= ?f) ?w0] => destruct ((m ≫= f) w0) as [r w1]
    end.
    exists r, w1. cbn [fst snd] in *. now repeat split.
Qed.

(** X21.  On every way out of [main] of show_pos.py [sys.stdout] is
    the terminal again and no file is left open: when the credentials
    are missing (no redirection takes place), when the report file
    cannot be created, at the normal end, at the early return and
    after an exception, in the [try] block or in its handler.  On a
    terminal that takes every write, with a report file that can be
    written, no exception of the [try] block leaves [main]: the
    handler prints it. *)
Theorem positions_main_restores_stdout have_keys describe body budget writable :
  let run := show_pos.main have_keys describe body (start budget writable) in
  sys_stdout run.2 = Terminal /\ log_open run.2 = false /\
  (budget = None -> writable = true -> run.1 = Ok tt).
Proof.
  cbv zeta.
  destruct (positions_main_run have_keys describe body budget writable)
    as (r & w' & -> & H1 & H2 & H3).
  now repeat split.
Qed.

End PositionsMain.

(** The [try] block prints a line and raises: [main] ends normally. *)
Lemma positions_main_witness :
  (show_pos.main true (fun _ => "connection refused")
     [pyio.Print "# Webull ポジション表示レポート"; pyio.Fail OSError]
     (pyio.start None true)).1 = Ok tt.
Proof.
  exact (proj2 (proj2 (positions_main_restores_stdout true (fun _ => "connection refused")
                         [pyio.Print "# Webull ポジション表示レポート"; pyio.Fail OSError]
                         None true)) eq_refl eq_refl).
Defined.
